(** * custom_plotting.py: spaghetti and ribbon plots

    A shallow embedding of [spaghetti_plot] and [ribbon_plot] together with
    the part of numpy and matplotlib they call.  Python objects that the
    functions share with their caller (arrays, keyword dictionaries, axes)
    live in a store and are passed by reference; every function is a
    computation in a state-and-exception monad over that store.

    Numbers are exact rationals: a Python float is modelled by the rational
    it approximates, so the rounding and the overflow of float64 arithmetic
    are not part of this development.  The theorems on [ribbon_plot]
    therefore name the curves it draws as what [np.percentile] and
    [np.median] return, and state nothing on the order of their values.

    The library routines are modelled as far as the two functions depend on
    them: what they add to the canvas, and that they reject an empty sample
    axis, levels that are no percentages, data whose lengths do not fit and
    keywords that the artist does not accept.  Which keywords, with which
    values, matplotlib accepts for a line and for a filled region is not
    written in the module: it is a parameter of the store.  Keywords that
    are accepted are recorded with the artist, not interpreted. *)

From Stdlib Require Import QArith Qround Lqa Lia ZArith.
From stdpp Require Import gmap strings list fin_maps sorting.

Open Scope Q_scope.

(** ** Python values and exceptions *)

Inductive pyval :=
| PNone
| PBool (b : bool)
| PInt (z : Z)
| PFloat (q : Q)
| PStr (s : string).

(** [bool(v)] *)
Definition truthy (v : pyval) : bool :=
  match v with
  | PNone => false
  | PBool b => b
  | PInt z => negb (z =? 0)%Z
  | PFloat q => negb (Qeq_bool q 0)
  | PStr s => negb (String.eqb s "")
  end.

Inductive exn :=
| ValueError (msg : string)     (* raised by the module itself *)
| IndexError                    (* subscript out of bounds *)
| OverflowError                 (* an int that does not fit a C long *)
| ZeroDivisionError             (* [/] with a zero int divisor *)
| TypeError                     (* iterating [None], repeated keyword *)
| LibraryError (routine : string) (* raised inside the named library routine *)
| DanglingRef.                  (* the store binds no object at a reference *)

Inductive outcome (A : Type) :=
| Ok (a : A)
| Raise (e : exn).
Arguments Ok {A} a.
Arguments Raise {A} e.

(** A keyword argument with a default in the signature is either left out
    by the caller or passed. *)
Inductive arg (A : Type) :=
| Omitted
| Passed (a : A).
Arguments Omitted {A}.
Arguments Passed {A} a.

Definition arg_or {A} (dflt : A) (a : arg A) : A :=
  match a with Omitted => dflt | Passed v => v end.

(** ** The store *)

Definition loc := positive.

(** A two-dimensional array of shape [(length rows, shape1)]. *)
Record ndarray := NdArray { shape1 : nat; rows : list (list Q) }.

Definition shape0 (a : ndarray) : nat := length (rows a).

Definition well_shaped (a : ndarray) : Prop :=
  Forall (fun r => length r = shape1 a) (rows a).

Inductive drawstyle := Straight | Steps.

Inductive artifact :=
| Line2D (style : drawstyle) (xdata ydata : list Q) (props : gmap string pyval)
| PolyCollection (xdata y1 y2 : list Q) (props : gmap string pyval).

(** The keywords matplotlib accepts: for a line drawn with the given
    style, and for a filled region.  A set of keywords is accepted or
    rejected as a whole, names and values. *)
Record matplotlib := Matplotlib {
  line_accepts : drawstyle -> gmap string pyval -> bool;
  fill_accepts : gmap string pyval -> bool
}.

Record world := World {
  vectors : gmap loc (list Q);            (* one-dimensional arrays *)
  ensembles : gmap loc ndarray;           (* two-dimensional arrays *)
  dicts : gmap loc (gmap string pyval);   (* keyword dictionaries *)
  canvas : gmap loc (list artifact);      (* artists of each axes, oldest first *)
  current_axes : loc;                     (* what [plt.gca()] answers *)
  entropy : nat -> nat;                   (* raw output of the global generator *)
  drawn : nat;                            (* how much of it has been consumed *)
  mpl : matplotlib                        (* the matplotlib in use *)
}.

Definition set_dicts (d : gmap loc (gmap string pyval)) (w : world) : world :=
  World (vectors w) (ensembles w) d (canvas w) (current_axes w) (entropy w)
        (drawn w) (mpl w).
Definition set_canvas (c : gmap loc (list artifact)) (w : world) : world :=
  World (vectors w) (ensembles w) (dicts w) c (current_axes w) (entropy w)
        (drawn w) (mpl w).
Definition set_current_axes (ax : loc) (w : world) : world :=
  World (vectors w) (ensembles w) (dicts w) (canvas w) ax (entropy w)
        (drawn w) (mpl w).
Definition set_drawn (n : nat) (w : world) : world :=
  World (vectors w) (ensembles w) (dicts w) (canvas w) (current_axes w) (entropy w)
        n (mpl w).

Definition artists (w : world) (ax : loc) : list artifact :=
  default [] (canvas w !! ax).

(** ** State and exception monad *)

Definition M (A : Type) : Type := world -> outcome A * world.

Definition ret {A} (a : A) : M A := fun w => (Ok a, w).
Definition raise {A} (e : exn) : M A := fun w => (Raise e, w).
Definition bind {A B} (m : M A) (k : A -> M B) : M B :=
  fun w => match m w with
           | (Ok a, w') => k a w'
           | (Raise e, w') => (Raise e, w')
           end.
Definition lift {A} (o : outcome A) : M A := fun w => (o, w).

Notation "x <- m ;; k" := (bind m (fun x => k))
  (at level 100, m at next level, right associativity).
Notation "m ;; k" := (bind m (fun _ => k))
  (at level 100, right associativity).

(** [for a in l: body(a)] *)
Fixpoint for_each {A} (l : list A) (body : A -> M unit) : M unit :=
  match l with
  | [] => ret tt
  | a :: l' => body a ;; for_each l' body
  end.

Definition read_vector (x : loc) : M (list Q) :=
  fun w => match vectors w !! x with
           | Some v => (Ok v, w)
           | None => (Raise DanglingRef, w)
           end.

Definition read_ensemble (y : loc) : M ndarray :=
  fun w => match ensembles w !! y with
           | Some a => (Ok a, w)
           | None => (Raise DanglingRef, w)
           end.

Definition read_dict (d : loc) : M (gmap string pyval) :=
  fun w => match dicts w !! d with
           | Some m => (Ok m, w)
           | None => (Raise DanglingRef, w)
           end.

Definition write_dict (d : loc) (m : gmap string pyval) : M unit :=
  fun w => (Ok tt, set_dicts (<[d := m]> (dicts w)) w).

(** The literal [{}]: a new, empty dictionary. *)
Definition new_dict : M loc :=
  fun w => let d := fresh (dom (dicts w)) in
           (Ok d, set_dicts (<[d := ∅]> (dicts w)) w).

(** [bool(m)] of a dictionary. *)
Definition dict_truthy (m : gmap string pyval) : bool := negb (size m =? 0)%nat.

(** [d or {}] where [d] is [None] or a dictionary. *)
Definition or_new_dict (d : option loc) : M loc :=
  match d with
  | None => new_dict
  | Some l => m <- read_dict l ;; if dict_truthy m then ret l else new_dict
  end.

(** The contents of [d or {}], for a call site that only unpacks it:
    when [d] is empty the new dictionary has the same (no) items. *)
Definition or_empty_items (d : option loc) : M (gmap string pyval) :=
  match d with
  | None => ret ∅
  | Some l => read_dict l
  end.

(** [d.pop(key, dflt)] *)
Definition dict_pop (d : loc) (key : string) (dflt : pyval) : M pyval :=
  m <- read_dict d ;;
  match m !! key with
  | Some v => write_dict d (delete key m) ;; ret v
  | None => ret dflt
  end.

(** [1 / n] on a Python int [n]. *)
Definition py_truediv (a n : Z) : outcome Q :=
  if (n =? 0)%Z then Raise ZeroDivisionError
  else Ok (Qred (inject_Z a / inject_Z n)).

(** Keywords of a call [f(..., k1=v1, ..., **extra)]: a key given both
    explicitly and through the unpacked mapping is a [TypeError]. *)
Definition call_keywords (explicit : list (string * pyval))
    (extra : gmap string pyval) : outcome (gmap string pyval) :=
  if forallb (fun kv => bool_decide (extra !! kv.1 = None)) explicit
  then Ok (list_to_map explicit ∪ extra)
  else Raise TypeError.

(** ** numpy *)

Module Np.

(** [np.linspace(start, stop, num=num, endpoint=endpoint)]: [num] points
    [start + i * step] with [step = (stop - start) / div], where [div] is
    [num - 1] when the end point is included and [num] otherwise; with the
    end point included the last point is then set to [stop] itself. *)
Definition linspace (start stop : Q) (num : Z) (endpoint : bool)
    : outcome (list Q) :=
  if (num <? 0)%Z then Raise (LibraryError "np.linspace")
  else
    let div := if endpoint then (num - 1)%Z else num in
    let delta := stop - start in
    let step := if (0 <? div)%Z then delta / inject_Z div else delta in
    let pts := map (fun i => Qred (start + inject_Z i * step)) (seqZ 0 num) in
    Ok (if endpoint && (1 <? num)%Z
        then take (Z.to_nat (num - 1)) pts ++ [Qred stop]
        else pts).

(** [range(n)] *)
Definition range (n : nat) : list Z := seqZ 0 (Z.of_nat n).

Definition Qle_b : relation Q := fun a b => Is_true (Qle_bool a b).

(** Linear-interpolation percentile (numpy's default method) of a
    non-empty sample [a] at level [q] in [0, 100]: with [s] the sorted
    sample and [v = (n - 1) * q / 100], the value
    [s[k] + (s[k+1] - s[k]) * (v - k)] at [k = floor v], the upper
    neighbour being clipped to the last element. *)
Definition percentile_1d (a : list Q) (q : Q) : Q :=
  let s := merge_sort Qle_b a in
  let last := (length s - 1)%nat in
  let v := inject_Z (Z.of_nat last) * (q / 100) in
  let k := Z.to_nat (Qfloor v) in
  let gamma := v - inject_Z (Qfloor v) in
  let lo := nth (Nat.min k last) s 0 in
  let hi := nth (Nat.min (S k) last) s 0 in
  Qred (lo + (hi - lo) * gamma).

(** [np.median] of a non-empty sample: the middle element of the sorted
    sample, or the mean of the two middle ones. *)
Definition median_1d (a : list Q) : Q :=
  let s := merge_sort Qle_b a in
  let n := length s in
  if Nat.even n
  then Qred ((nth (n / 2 - 1) s 0 + nth (n / 2) s 0) / 2)
  else Qred (nth (n / 2) s 0).

(** The columns of a two-dimensional array (its slices along axis 0). *)
Definition columns (a : ndarray) : list (list Q) :=
  map (fun j => map (fun r => nth j r 0) (rows a)) (seq 0 (shape1 a)).

Definition valid_level (q : Q) : bool := Qle_bool 0 q && Qle_bool q 100.

(** [np.percentile(y, qs, axis=0)]: one curve (of length [shape1]) per
    level.  An empty sample axis is rejected, also when no level is asked
    for, and so are levels outside [0, 100]. *)
Definition percentile (y : loc) (qs : list Q) : M (list (list Q)) :=
  a <- read_ensemble y ;;
  match rows a with
  | [] => raise (LibraryError "np.percentile")
  | _ =>
      if forallb valid_level qs
      then ret (map (fun q => map (fun c => percentile_1d c q) (columns a)) qs)
      else raise (LibraryError "np.percentile")
  end.

(** [np.median(y, axis=0)].  Over an empty sample axis numpy answers NaN,
    which a rational cannot represent: the model reports it as a failure
    of the routine.  [ribbon_plot] does not get there: [np.percentile] has
    rejected such an array before. *)
Definition median (y : loc) : M (list Q) :=
  a <- read_ensemble y ;;
  match rows a with
  | [] => raise (LibraryError "np.median")
  | _ => ret (map median_1d (columns a))
  end.

(** [np.random.choice(a, size)]: [size] elements of [a], each at a
    position the global generator chooses, so with replacement.  The
    generator is a tape of raw outputs; a raw output [r] selects position
    [r mod len(a)].  Only which results are possible is modelled, not
    their probabilities. *)
Definition random_choice (a : list Z) (size : Z) : M (list Z) :=
  fun w =>
    if (size <? 0)%Z then (Raise (LibraryError "np.random.choice"), w)
    else if (length a =? 0)%nat && (0 <? size)%Z
    then (Raise (LibraryError "np.random.choice"), w)
    else
      let k := Z.to_nat size in
      (Ok (map (fun i => nth (entropy w (drawn w + i) mod length a) a 0%Z)
               (seq 0 k)),
       set_drawn (drawn w + k) w).

End Np.

(** ** matplotlib *)

Module Plt.

Definition add_artist (ax : loc) (a : artifact) : M unit :=
  fun w => (Ok tt, set_canvas (<[ax := artists w ax ++ [a]]> (canvas w)) w).

(** [plt.gca()] *)
Definition gca : M loc := fun w => (Ok (current_axes w), w).

(** [plt.sca(ax)] *)
Definition sca (ax : loc) : M unit := fun w => (Ok tt, set_current_axes ax w).

(** Whether the matplotlib in use accepts the keywords. *)
Definition line_accepted (style : drawstyle) (props : gmap string pyval) : M bool :=
  fun w => (Ok (line_accepts (mpl w) style props), w).

Definition fill_accepted (props : gmap string pyval) : M bool :=
  fun w => (Ok (fill_accepts (mpl w) props), w).

(** [ax.plot(x, ydata, **props)] and, with [Steps], [ax.step]: one line
    is added.  Data of different lengths and keywords that a line does not
    accept are rejected, and then nothing is added. *)
Definition axes_line (ax : loc) (style : drawstyle) (x : loc)
    (ydata : list Q) (props : gmap string pyval) : M unit :=
  xdata <- read_vector x ;;
  accepted <- line_accepted style props ;;
  if (length xdata =? length ydata)%nat && accepted
  then add_artist ax (Line2D style xdata ydata props)
  else raise (LibraryError "plot").

(** [plt.plot] and [plt.step] draw on the current axes. *)
Definition plot (x : loc) (ydata : list Q) (props : gmap string pyval) : M unit :=
  ax <- gca ;; axes_line ax Straight x ydata props.

Definition step (x : loc) (ydata : list Q) (props : gmap string pyval) : M unit :=
  ax <- gca ;; axes_line ax Steps x ydata props.

(** Broadcasting of one-dimensional arrays: two lengths fit when they are
    equal or one of them is 1, and an array of length 1 is repeated. *)
Definition broadcast_length (n m : nat) : option nat :=
  if (n =? m)%nat then Some n
  else if (n =? 1)%nat then Some m
  else if (m =? 1)%nat then Some n
  else None.

Definition broadcast_to (n : nat) (v : list Q) : list Q :=
  if (length v =? n)%nat then v else replicate n (nth 0 v 0).

(** [plt.fill_between(x, y1, y2, **props)]: one filled region between
    two curves is added to the current axes, the three arrays being
    broadcast against each other.  Arrays whose lengths do not fit and
    keywords that a filled region does not accept are rejected, and then
    nothing is added. *)
Definition fill_between (x : loc) (y1 y2 : list Q)
    (props : gmap string pyval) : M unit :=
  xdata <- read_vector x ;;
  accepted <- fill_accepted props ;;
  match broadcast_length (length xdata) (length y1) with
  | Some n1 =>
      match broadcast_length n1 (length y2) with
      | Some n =>
          if accepted
          then ax <- gca ;;
               add_artist ax (PolyCollection (broadcast_to n xdata)
                                (broadcast_to n y1) (broadcast_to n y2) props)
          else raise (LibraryError "fill_between")
      | None => raise (LibraryError "fill_between")
      end
  | None => raise (LibraryError "fill_between")
  end.

End Plt.

(** ** The module *)

Definition exactly_one_msg : string :=
  "Exactly one of `n_samples` or `indices` must be specified".

(** The ints a C long holds are those of [-long_bound, long_bound), on a
    platform where it has 64 bits. *)
Definition long_bound : Z := 2 ^ 63.

(** [y[idx]] on a two-dimensional array: row [idx], counted from the end
    when [idx] is negative.  An index outside [-N, N) is an [IndexError]
    when it fits a C long and an [OverflowError] when it does not (no
    array has that many rows). *)
Definition getitem (y : loc) (idx : Z) : M (list Q) :=
  a <- read_ensemble y ;;
  let n := Z.of_nat (shape0 a) in
  if (0 <=? idx)%Z && (idx <? n)%Z then ret (nth (Z.to_nat idx) (rows a) [])
  else if (- n <=? idx)%Z && (idx <? 0)%Z
       then ret (nth (Z.to_nat (n + idx)) (rows a) [])
       else if (- long_bound <=? idx)%Z && (idx <? long_bound)%Z
            then raise IndexError
            else raise OverflowError.

(** [ax or plt.gca()]: an axes object is always truthy. *)
Definition ax_or_gca (ax : option loc) : M loc :=
  match ax with Some a => ret a | None => Plt.gca end.

(** [bool(n_samples)] for [None] or an int. *)
Definition has_samples_of (n_samples : option Z) : bool :=
  match n_samples with None => false | Some n => negb (n =? 0)%Z end.

(** [spaghetti_plot(x, y, n_samples, indices, ax, plot_kwargs)], lines
    31 to 44.  [n_samples] is [None] or an int, [indices] is [None] or a
    sequence of ints.  In [ax.plot(x, y[idx], **(plot_kwargs or {}))] the
    subscript is evaluated before the keywords. *)
Definition spaghetti_plot (x y : loc) (n_samples : option Z)
    (indices : option (list Z)) (ax plot_kwargs : option loc) : M loc :=
  let has_indices := bool_decide (indices <> None) in
  let has_samples := has_samples_of n_samples in
  if Bool.eqb has_indices has_samples then raise (ValueError exactly_one_msg)
  else
    indices <- (if has_samples
                then a <- read_ensemble y ;;
                     idxs <- Np.random_choice (Np.range (shape1 a))
                                              (default 0%Z n_samples) ;;
                     ret (Some idxs)
                else ret indices) ;;
    ax <- ax_or_gca ax ;;
    match indices with
    | None => raise TypeError
    | Some idxs =>
        for_each idxs (fun idx =>
          row <- getitem y idx ;;
          props <- or_empty_items plot_kwargs ;;
          Plt.axes_line ax Straight x row props) ;;
        ret ax
    end.

(** A call site of [spaghetti_plot]: [n_samples] left out takes the
    default 20 of the signature. *)
Definition call_spaghetti_plot (x y : loc) (n_samples : arg (option Z))
    (indices : option (list Z)) (ax plot_kwargs : option loc) : M loc :=
  spaghetti_plot x y (arg_or (Some 20%Z) n_samples) indices ax plot_kwargs.

(** The percentile levels of the lower and upper band boundaries: the
    arguments of the two [np.percentile] calls of lines 83 to 86,
    [np.linspace(percentile_min, 50, num=n_ribbons, endpoint=False)] and
    [np.linspace(50, percentile_max, num=n_ribbons + 1)[1:]]. *)
Definition lower_levels (percentile_min : Q) (n_ribbons : Z) : outcome (list Q) :=
  Np.linspace percentile_min 50 n_ribbons false.

Definition upper_levels (percentile_max : Q) (n_ribbons : Z) : outcome (list Q) :=
  match Np.linspace 50 percentile_max (n_ribbons + 1) true with
  | Ok l => Ok (drop 1 l)
  | Raise e => Raise e
  end.

(** [ribbon_plot(x, y, n_ribbons, percentile_min, percentile_max,
    ribbon_color, plot_median, line_color, ax, fill_kwargs, line_kwargs)],
    lines 83 to 103.  After lines 87 and 88 the names [fill_kwargs] and
    [line_kwargs] refer to dictionaries: the caller's when it is not
    empty, a new one otherwise.  The default [1 / n_ribbons] of the [pop]
    of line 89 is an argument and is computed before the call.  The
    unpacked [fill_kwargs or {}] and [line_kwargs or {}] of lines 96 and
    101 have the items of the dictionary itself, which are read at each
    call. *)
Definition ribbon_plot (x y : loc) (n_ribbons : Z)
    (percentile_min percentile_max : Q) (ribbon_color : pyval)
    (plot_median : bool) (line_color : pyval)
    (ax fill_kwargs line_kwargs : option loc) : M loc :=
  qs1 <- lift (lower_levels percentile_min n_ribbons) ;;
  perc1 <- Np.percentile y qs1 ;;
  qs2 <- lift (upper_levels percentile_max n_ribbons) ;;
  perc2 <- Np.percentile y qs2 ;;
  fill_kwargs <- or_new_dict fill_kwargs ;;
  line_kwargs <- or_new_dict line_kwargs ;;
  dflt <- lift (py_truediv 1 n_ribbons) ;;
  alpha <- dict_pop fill_kwargs "alpha" (PFloat dflt) ;;
  ax <- ax_or_gca ax ;;
  Plt.sca ax ;;
  for_each (zip perc1 perc2) (fun p =>
    extra <- read_dict fill_kwargs ;;
    props <- lift (call_keywords [("alpha", alpha); ("color", ribbon_color)] extra) ;;
    Plt.fill_between x p.1 p.2 props) ;;
  (if plot_median then
     step <- dict_pop fill_kwargs "step" PNone ;;
     med <- Np.median y ;;
     extra <- read_dict line_kwargs ;;
     props <- lift (call_keywords [("color", line_color)] extra) ;;
     if truthy step then Plt.step x med props else Plt.plot x med props
   else ret tt) ;;
  Plt.gca.

(** ** Vocabulary of the specification *)

(** The items of an optional keyword dictionary as the caller passed it. *)
Definition items (w : world) (d : option loc) : gmap string pyval :=
  match d with
  | None => ∅
  | Some l => default ∅ (dicts w !! l)
  end.

(** An optional dictionary argument refers to an object of the store. *)
Definition bound (w : world) (d : option loc) : Prop :=
  match d with
  | None => True
  | Some l => is_Some (dicts w !! l)
  end.

(** The axes a call draws on: the one passed, else the current one. *)
Definition target_axes (w : world) (ax : option loc) : loc :=
  default (current_axes w) ax.

(** The row [y[idx]] of an array for an index within [-N, N). *)
Definition row_at (a : ndarray) (idx : Z) : list Q :=
  nth (Z.to_nat (if (0 <=? idx)%Z then idx else Z.of_nat (shape0 a) + idx))
      (rows a) [].

Definition in_row_range (a : ndarray) (idx : Z) : Prop :=
  (- Z.of_nat (shape0 a) <= idx < Z.of_nat (shape0 a))%Z.

(** The percentile curves of an array at a list of levels. *)
Definition curve (a : ndarray) (q : Q) : list Q :=
  map (fun c => Np.percentile_1d c q) (Np.columns a).

Definition curves (a : ndarray) (qs : list Q) : list (list Q) :=
  map (curve a) qs.

(** The median of every column. *)
Definition median_curve (a : ndarray) : list Q :=
  map Np.median_1d (Np.columns a).

(** Evenly spaced levels: [n] steps from [percentile_min] up to, and
    without, 50; and [n] steps from 50, without it, up to
    [percentile_max]. *)
Definition lower_level (percentile_min : Q) (n : Z) (i : nat) : Q :=
  percentile_min + inject_Z (Z.of_nat i) * ((50 - percentile_min) / inject_Z n).

Definition upper_level (percentile_max : Q) (n : Z) (i : nat) : Q :=
  50 + inject_Z (Z.of_nat i + 1) * ((percentile_max - 50) / inject_Z n).

Definition levels_are (f : nat -> Q) (n : nat) (l : list Q) : Prop :=
  length l = n /\ forall i, (i < n)%nat -> exists u, l !! i = Some u /\ u == f i.


Definition is_fill (a : artifact) : bool :=
  match a with PolyCollection _ _ _ _ => true | Line2D _ _ _ _ => false end.


Definition fill_alpha (a : artifact) : option pyval :=
  match a with
  | PolyCollection _ _ _ props => props !! "alpha"
  | Line2D _ _ _ _ => None
  end.

(** The arrays and dictionaries a call of [ribbon_plot] is given: [x]
    and [y] are arrays of matching length with at least one sample, and
    the style dictionaries are objects of the store. *)
Definition ribbon_data (w : world) (x y : loc) (xv : list Q) (a : ndarray)
    (fill_kwargs line_kwargs : option loc) : Prop :=
  vectors w !! x = Some xv /\
  ensembles w !! y = Some a /\
  length xv = shape1 a /\
  (0 < shape0 a)%nat /\
  bound w fill_kwargs /\ bound w line_kwargs.

(** The outer levels are percentages. *)
Definition percentages (percentile_min percentile_max : Q) : Prop :=
  (0 <= percentile_min /\ percentile_min <= 100) /\
  (0 <= percentile_max /\ percentile_max <= 100).

(** The transparency [ribbon_plot] uses: the caller's [alpha], else
    [1 / n_ribbons]. *)
Definition ribbon_alpha (w : world) (fill_kwargs : option loc) (n_ribbons : Z)
    : pyval :=
  default (PFloat (Qred (1 / inject_Z n_ribbons)))
          (items w fill_kwargs !! "alpha").

(** The keywords of every [fill_between] call: [alpha], [color] and the
    caller's remaining fill-style items. *)
Definition fill_props (w : world) (fill_kwargs : option loc) (n_ribbons : Z)
    (ribbon_color : pyval) : gmap string pyval :=
  list_to_map [("alpha", ribbon_alpha w fill_kwargs n_ribbons);
               ("color", ribbon_color)]
  ∪ delete "alpha" (items w fill_kwargs).

(** The draw style of the median line. *)
Definition median_style (w : world) (fill_kwargs : option loc) : drawstyle :=
  if truthy (default PNone (items w fill_kwargs !! "step"))
  then Steps else Straight.

(** The items of the line-style dictionary at the time the median line
    is drawn: when it is the object passed as fill-style options, [alpha]
    and [step] have been popped from it by then. *)
Definition line_items (w : world) (fill_kwargs line_kwargs : option loc)
    : gmap string pyval :=
  if decide (line_kwargs = fill_kwargs)
  then delete "step" (delete "alpha" (items w line_kwargs))
  else items w line_kwargs.

(** The keywords of the call that draws the median line. *)
Definition line_props (w : world) (fill_kwargs line_kwargs : option loc)
    (line_color : pyval) : gmap string pyval :=
  list_to_map [("color", line_color)] ∪ line_items w fill_kwargs line_kwargs.

(** What the keywords of a call of [ribbon_plot] must be like for the
    call to reach its [return]: no style dictionary in use repeats the
    keyword [color] that the function passes itself, and matplotlib
    accepts the keywords of the bands and, with [plot_median], those of
    the median line. *)
Definition ribbon_keywords (w : world) (fill_kwargs line_kwargs : option loc)
    (n_ribbons : Z) (ribbon_color : pyval) (plot_median : bool)
    (line_color : pyval) : Prop :=
  items w fill_kwargs !! "color" = None /\
  fill_accepts (mpl w) (fill_props w fill_kwargs n_ribbons ribbon_color) = true /\
  (plot_median = true ->
   items w line_kwargs !! "color" = None /\
   line_accepts (mpl w) (median_style w fill_kwargs)
     (line_props w fill_kwargs line_kwargs line_color) = true).

(** How the first [fill_between] call and the call that draws the median
    line end on data that fit: with [TypeError] when the dictionary
    repeats [color], with the library's exception when matplotlib rejects
    the keywords, and with an artist otherwise. *)
Definition fill_outcome (w : world) (fill_kwargs : option loc) (n_ribbons : Z)
    (ribbon_color : pyval) : option exn :=
  match items w fill_kwargs !! "color" with
  | Some _ => Some TypeError
  | None =>
      if fill_accepts (mpl w) (fill_props w fill_kwargs n_ribbons ribbon_color)
      then None else Some (LibraryError "fill_between")
  end.

Definition line_outcome (w : world) (fill_kwargs line_kwargs : option loc)
    (line_color : pyval) : option exn :=
  match items w line_kwargs !! "color" with
  | Some _ => Some TypeError
  | None =>
      if line_accepts (mpl w) (median_style w fill_kwargs)
           (line_props w fill_kwargs line_kwargs line_color)
      then None else Some (LibraryError "plot")
  end.

(** The artists a call of [ribbon_plot] adds when it returns: one band
    per pair of curves, with the keywords of the bands, and then the
    median line, if asked for. *)
Definition bands (w : world) (xv : list Q) (fill_kwargs : option loc)
    (n_ribbons : Z) (ribbon_color : pyval) (perc1 perc2 : list (list Q))
    : list artifact :=
  map (fun p : list Q * list Q =>
         PolyCollection xv p.1 p.2 (fill_props w fill_kwargs n_ribbons ribbon_color))
      (zip perc1 perc2).

Definition median_line (w : world) (xv med : list Q)
    (fill_kwargs line_kwargs : option loc) (line_color : pyval) : artifact :=
  Line2D (median_style w fill_kwargs) xv med
         (line_props w fill_kwargs line_kwargs line_color).

(** The arrays and the dictionary a call of [spaghetti_plot] is given:
    [x] has the length of the rows of [y], and [plot_kwargs] is an object
    of the store. *)
Definition spaghetti_data (w : world) (x y : loc) (xv : list Q) (a : ndarray)
    (plot_kwargs : option loc) : Prop :=
  vectors w !! x = Some xv /\
  ensembles w !! y = Some a /\
  well_shaped a /\
  length xv = shape1 a /\
  bound w plot_kwargs.

(** The line [spaghetti_plot] draws for the index [idx]. *)
Definition sample_line (w : world) (xv : list Q) (a : ndarray)
    (plot_kwargs : option loc) (idx : Z) : artifact :=
  Line2D Straight xv (row_at a idx) (items w plot_kwargs).

(** Two dictionaries agree on every key other than [alpha] and [step]. *)
Definition agree_outside (m m' : gmap string pyval) : Prop :=
  forall k : string, k <> "alpha" -> k <> "step" -> m' !! k = m !! k.

(** The fill-style dictionary after a completed call of [ribbon_plot]. *)
Definition popped (plot_median : bool) (m : gmap string pyval)
    : gmap string pyval :=
  if plot_median then delete "step" (delete "alpha" m) else delete "alpha" m.

(** The caller's dictionary [l] holds [c]; the function's local
    dictionary [fk] is another object only when the caller's is empty. *)
Definition holds (l : loc) (c : gmap string pyval) (fk : loc) (w : world)
    : Prop :=
  dicts w !! l = Some c /\ (fk <> l -> c = ∅).

(** The caller's dictionary [l] still has every item of [m] other than
    [alpha] and [step]. *)
Definition kept (l : loc) (m : gmap string pyval) (w : world) : Prop :=
  exists c, dicts w !! l = Some c /\ agree_outside m c.

(** The exception of line 35. *)
Definition selection_error : exn := ValueError exactly_one_msg.

(** Postconditions for "any result" and "some other exception". *)
Definition anything {A} (_ : A) (_ : world) : Prop := True.

Definition other_error (e : exn) (_ : world) : Prop := e <> selection_error.

(** ** Reasoning about computations *)

(** Total correctness with an exceptional postcondition. *)
Definition hoare {A} (P : world -> Prop) (m : M A)
    (Q : A -> world -> Prop) (E : exn -> world -> Prop) : Prop :=
  forall w, P w ->
    match m w with
    | (Ok a, w') => Q a w'
    | (Raise e, w') => E e w'
    end.

(** [m] leaves the observation [f] of the store as it was, whatever its
    outcome. *)
Definition preserves {A T} (f : world -> T) (m : M A) : Prop :=
  forall w, f (m w).2 = f w.

(** ** Example stores *)

Definition x_ref : loc := 1%positive.
Definition y_ref : loc := 2%positive.
Definition fill_ref : loc := 3%positive.
Definition line_ref : loc := 4%positive.
Definition the_axes : loc := 9%positive.

Definition positions : list Q := [0; 1; 2].

(** Three samples at three positions. *)
Definition three_samples : ndarray :=
  NdArray 3 [[0; 0; 0]; [10; 10; 10]; [20; 20; 20]].

(** Two samples at three positions: shape [(2, 3)]. *)
Definition two_samples : ndarray := NdArray 3 [[0; 0; 0]; [10; 10; 10]].

(** A hundred samples, sample [i] being [i] at every position. *)
Definition hundred_samples : ndarray :=
  NdArray 3 (map (fun i => let v := inject_Z (Z.of_nat i) in [v; v; v])
                 (seq 0 100)).

(** Ten samples, all ones: shape [(10, 3)]. *)
Definition ten_ones : ndarray := NdArray 3 (replicate 10 [1; 1; 1]).

Definition fill_style : gmap string pyval :=
  {[ "alpha" := PFloat (1 # 2); "step" := PStr "pre"; "hatch" := PStr "/" ]}.

Definition line_style : gmap string pyval := {[ "linewidth" := PInt 2 ]}.

(** A few of the keywords matplotlib accepts, enough for the examples: a
    colour is one of the letters [r], [g], [b] and [k], [alpha] lies in
    [0, 1], a line width is not negative; a filled region moreover takes
    [step], one of [pre], [post] and [mid], and the [hatch] pattern [/]. *)
Definition is_color (v : pyval) : bool :=
  match v with
  | PStr s => String.eqb s "r" || String.eqb s "g" || String.eqb s "b"
              || String.eqb s "k"
  | _ => false
  end.

Definition is_opacity (v : pyval) : bool :=
  match v with
  | PFloat q => Qle_bool 0 q && Qle_bool q 1
  | PInt z => (z =? 0)%Z || (z =? 1)%Z
  | _ => false
  end.

Definition is_width (v : pyval) : bool :=
  match v with
  | PFloat q => Qle_bool 0 q
  | PInt z => (0 <=? z)%Z
  | _ => false
  end.

Definition is_step (v : pyval) : bool :=
  match v with
  | PStr s => String.eqb s "pre" || String.eqb s "post" || String.eqb s "mid"
  | _ => false
  end.

Definition line_keyword (kv : string * pyval) : bool :=
  if String.eqb kv.1 "color" then is_color kv.2
  else if String.eqb kv.1 "alpha" then is_opacity kv.2
  else if String.eqb kv.1 "linewidth" then is_width kv.2
  else false.

Definition fill_keyword (kv : string * pyval) : bool :=
  if String.eqb kv.1 "step" then is_step kv.2
  else if String.eqb kv.1 "hatch"
       then match kv.2 with PStr s => String.eqb s "/" | _ => false end
       else line_keyword kv.

Definition some_keywords : matplotlib :=
  Matplotlib (fun _ props => forallb line_keyword (map_to_list props))
             (fun props => forallb fill_keyword (map_to_list props)).

(** A store with [positions] as [x], the given array as [y], the two
    style dictionaries, an empty canvas and the given generator tape. *)
Definition store_with (a : ndarray) (tape : nat -> nat) : world :=
  World {[ x_ref := positions ]} {[ y_ref := a ]}
        {[ fill_ref := fill_style; line_ref := line_style ]}
        ∅ the_axes tape 0 some_keywords.



(** A dictionary to pass both as fill-style and as line-style options. *)
Definition shared_style : gmap string pyval :=
  {[ "alpha" := PFloat (1 # 2); "step" := PStr "pre"; "linewidth" := PInt 2 ]}.

(** As [store_with], with the given style dictionaries. *)
Definition styled_store (fill line : gmap string pyval) (a : ndarray)
    (tape : nat -> nat) : world :=
  World {[ x_ref := positions ]} {[ y_ref := a ]}
        {[ fill_ref := fill; line_ref := line ]}
        ∅ the_axes tape 0 some_keywords.

(** ** Vocabulary of the further properties *)

(** Relative to the store [w0], the store [w] has kept every artist, has
    gained artists of the kind [only] on the axes [axl], and has the
    artists of [w0] on every other axes. *)
Definition drew_on (only : artifact -> bool) (w0 : world) (axl : loc)
    (w : world) : Prop :=
  (exists added,
     artists w axl = artists w0 axl ++ added /\
     Forall (fun r => only r = true) added) /\
  (forall ax', ax' <> axl -> artists w ax' = artists w0 ax').

Definition any_artist (_ : artifact) : bool := true.

(** A line drawn with [plot], not with [step]. *)
Definition is_plain_line (r : artifact) : bool :=
  match r with
  | Line2D Straight _ _ _ => true
  | _ => false
  end.

(** The dictionary [l] holds [m] and is not the function's local
    dictionary [fk]. *)
Definition untouched (l : loc) (m : gmap string pyval) (fk : loc) (w : world)
    : Prop :=
  dicts w !! l = Some m /\ fk <> l.

(** The keywords of an artist. *)
Definition props_of (r : artifact) : gmap string pyval :=
  match r with
  | PolyCollection _ _ _ props => props
  | Line2D _ _ _ props => props
  end.

(** * Properties *)

(** ** The model on the scenarios of the specification *)

(** One ribbon between the 1st and the 99th percentile of the hundred
    samples: one band from 0.99 to 98.01 and the median line at 49.5. *)
Example ribbon_plot_hundred_samples :
  let w := store_with hundred_samples (fun i => i) in
  let r := ribbon_plot x_ref y_ref 1 1 99 (PStr "r") true (PStr "k")
                       None None None w in
  r.1 = Ok the_axes /\
  exists fill_props line_props,
    artists r.2 the_axes =
      [PolyCollection positions (replicate 3 (99 # 100)) (replicate 3 (9801 # 100))
                      fill_props;
       Line2D Straight positions (replicate 3 (99 # 2)) line_props] /\
    fill_props !! "alpha" = Some (PFloat 1).
Proof.
  cbv zeta. split; [vm_compute; reflexivity|].
  eexists _, _. split; vm_compute; reflexivity.
Qed.

(** Rows 0, 3 and 7 of the ten all-ones samples, the count passed as 0:
    three lines, each [1, 1, 1]. *)
Example spaghetti_plot_ten_ones :
  let w := store_with ten_ones (fun i => i) in
  let r := call_spaghetti_plot x_ref y_ref (Passed (Some 0%Z))
                               (Some [0; 3; 7]%Z) None None w in
  r.1 = Ok the_axes /\
  artists r.2 the_axes = replicate 3 (Line2D Straight positions [1; 1; 1] ∅).
Proof. cbv zeta. split; vm_compute; reflexivity. Qed.

(** Levels of ten ribbons between the 1st and the 99th percentile: 1,
    5.9, ..., 45.1 below and 54.9, 59.8, ..., 99 above the median. *)
Example default_levels :
  lower_levels 1 10 =
    Ok [1; 59 # 10; 54 # 5; 157 # 10; 103 # 5; 51 # 2; 152 # 5; 353 # 10;
        201 # 5; 451 # 10] /\
  upper_levels 99 10 =
    Ok [549 # 10; 299 # 5; 647 # 10; 348 # 5; 149 # 2; 397 # 5; 843 # 10;
        446 # 5; 941 # 10; 99].
Proof. split; reflexivity. Qed.

(** ** Order statistics and interpolation *)

Section Percentile.

Lemma length_sorted (a : list Q) : length (merge_sort Np.Qle_b a) = length a.
Proof. apply Permutation_length, merge_sort_Permutation. Qed.


Lemma lerp_between (a b g : Q) :
  a <= b -> 0 <= g -> g <= 1 -> a <= a + (b - a) * g /\ a + (b - a) * g <= b.
Proof.
  intros Hab Hg0 Hg1.
  assert (0 <= (b - a) * g) by (apply Qmult_le_0_compat; lra).
  assert (0 <= (b - a) * (1 - g)) by (apply Qmult_le_0_compat; lra).
  split; lra.
Qed.

Lemma Qfloor_half (n : Z) : Qfloor (inject_Z n * (50 / 100)) = (n / 2)%Z.
Proof.
  rewrite Zdiv_Qdiv. apply Qfloor_comp. change (inject_Z 2) with 2. field.
Qed.

(** In exact arithmetic the median is the 50th percentile. *)
Lemma median_1d_percentile (a : list Q) :
  (0 < length a)%nat -> Np.median_1d a = Np.percentile_1d a 50.
Proof.
  intros Hlen. unfold Np.median_1d, Np.percentile_1d. cbv zeta.
  rewrite Qfloor_half.
  set (s := merge_sort Np.Qle_b a).
  assert (Hs : (0 < length s)%nat) by (unfold s; rewrite length_sorted; exact Hlen).
  destruct (Nat.even (length s)) eqn:Hev.
  - apply Nat.even_spec in Hev. destruct Hev as [m Hm].
    assert (Hk : (Z.of_nat (length s - 1) / 2)%Z = Z.of_nat (m - 1)).
    { symmetry. apply (Z.div_unique _ _ _ 1); lia. }
    rewrite Hk, Nat2Z.id.
    replace (length s / 2)%nat with m
      by (rewrite Hm, Nat.mul_comm, Nat.div_mul; lia).
    replace (Nat.min (m - 1) (length s - 1)) with (m - 1)%nat by lia.
    replace (Nat.min (S (m - 1)) (length s - 1)) with m by lia.
    apply Qred_complete.
    replace (Z.of_nat (length s - 1)) with (2 * Z.of_nat (m - 1) + 1)%Z by lia.
    rewrite inject_Z_plus, inject_Z_mult. change (inject_Z 2) with 2.
    change (inject_Z 1) with 1. field.
  - assert (Hodd : Nat.odd (length s) = true)
      by (rewrite <- Nat.negb_even, Hev; reflexivity).
    apply Nat.odd_spec in Hodd. destruct Hodd as [m Hm].
    assert (Hk : (Z.of_nat (length s - 1) / 2)%Z = Z.of_nat m).
    { symmetry. apply (Z.div_unique _ _ _ 0); lia. }
    rewrite Hk, Nat2Z.id.
    replace (length s / 2)%nat with m
      by (apply (Nat.div_unique _ _ _ 1); lia).
    replace (Nat.min m (length s - 1)) with m by lia.
    apply Qred_complete.
    replace (Z.of_nat (length s - 1)) with (2 * Z.of_nat m)%Z by lia.
    rewrite inject_Z_mult. change (inject_Z 2) with 2. field.
Qed.

End Percentile.

(** ** Percentile levels of the bands *)

Section Linspace.

Lemma lower_levels_spec (pmin : Q) (n : Z) :
  (1 <= n)%Z ->
  exists ls, lower_levels pmin n = Ok ls /\
             levels_are (lower_level pmin n) (Z.to_nat n) ls.
Proof.
  intros Hn. unfold lower_levels, Np.linspace.
  destruct (Z.ltb_spec n 0) as [?|_]; [lia|].
  destruct (Z.ltb_spec 0 n) as [_|?]; [|lia].
  simpl andb. cbv iota.
  eexists. split; [reflexivity|]. split.
  - rewrite length_map, length_seqZ. reflexivity.
  - intros i Hi. eexists. split.
    + rewrite list_lookup_fmap, lookup_seqZ_lt by lia. reflexivity.
    + rewrite Qred_correct. reflexivity.
Qed.

Lemma upper_levels_spec (pmax : Q) (n : Z) :
  (1 <= n)%Z ->
  exists us, upper_levels pmax n = Ok us /\
             levels_are (upper_level pmax n) (Z.to_nat n) us.
Proof.
  intros Hn. unfold upper_levels, Np.linspace.
  destruct (Z.ltb_spec (n + 1) 0) as [?|_]; [lia|].
  replace (n + 1 - 1)%Z with n by lia.
  destruct (Z.ltb_spec 0 n) as [_|?]; [|lia].
  destruct (Z.ltb_spec 1 (n + 1)) as [_|?]; [|lia].
  simpl andb. cbv iota. eexists. split; [reflexivity|].
  set (pts := map _ (seqZ 0 (n + 1))).
  assert (Hpts : length pts = S (Z.to_nat n)).
  { unfold pts. rewrite length_map, length_seqZ. lia. }
  split.
  - rewrite length_drop, length_app, length_take, Hpts. simpl. lia.
  - intros i Hi. rewrite lookup_drop.
    destruct (decide (S i < Z.to_nat n)%nat) as [Hlt|Hge].
    + eexists. split.
      * rewrite lookup_app_l by (rewrite length_take, Hpts; lia).
        rewrite lookup_take_lt by lia.
        unfold pts. rewrite list_lookup_fmap, lookup_seqZ_lt by lia. reflexivity.
      * rewrite Qred_correct. unfold upper_level.
        replace (0 + Z.of_nat (1 + i))%Z with (Z.of_nat i + 1)%Z by lia.
        reflexivity.
    + exists (Qred pmax). split.
      * rewrite lookup_app_r by (rewrite length_take, Hpts; lia).
        rewrite length_take, Hpts.
        replace (1 + i - Z.to_nat n `min` S (Z.to_nat n))%nat with 0%nat by lia.
        reflexivity.
      * rewrite Qred_correct. unfold upper_level.
        replace (Z.of_nat i + 1)%Z with n by lia.
        field. intros H0. apply (inject_Z_injective n 0) in H0. lia.
Qed.

End Linspace.

Section Levels.

Variable n : Z.
Hypothesis n_pos : (1 <= n)%Z.

Lemma inject_n_pos : 0 < inject_Z n.
Proof. change 0 with (inject_Z 0). rewrite <- Zlt_Qlt. lia. Qed.

Lemma ratio_unit (i : Z) :
  (0 <= i <= n)%Z -> 0 <= inject_Z i / inject_Z n /\ inject_Z i / inject_Z n <= 1.
Proof.
  intros Hi. pose proof inject_n_pos as Hn. split.
  - apply Qle_shift_div_l; [exact Hn|]. rewrite Qmult_0_l.
    change 0 with (inject_Z 0). rewrite <- Zle_Qle. lia.
  - apply Qle_shift_div_r; [exact Hn|]. rewrite Qmult_1_l.
    rewrite <- Zle_Qle. lia.
Qed.

Lemma step_as_ratio (a b : Q) (i : Z) :
  a + inject_Z i * ((b - a) / inject_Z n) == a + (b - a) * (inject_Z i / inject_Z n).
Proof. pose proof inject_n_pos. field. lra. Qed.

Lemma between_ends (a b : Q) (i : Z) :
  (0 <= i <= n)%Z -> a <= b ->
  a <= a + inject_Z i * ((b - a) / inject_Z n) /\
  a + inject_Z i * ((b - a) / inject_Z n) <= b.
Proof.
  intros Hi Hab. rewrite step_as_ratio.
  destruct (ratio_unit i Hi). apply lerp_between; assumption.
Qed.

Lemma between_ends_rev (a b : Q) (i : Z) :
  (0 <= i <= n)%Z -> b <= a ->
  b <= a + inject_Z i * ((b - a) / inject_Z n) /\
  a + inject_Z i * ((b - a) / inject_Z n) <= a.
Proof.
  intros Hi Hab. rewrite step_as_ratio.
  destruct (ratio_unit i Hi) as [H0 H1].
  set (t := inject_Z i / inject_Z n) in *.
  assert (0 <= (a - b) * t) by (apply Qmult_le_0_compat; lra).
  assert (0 <= (a - b) * (1 - t)) by (apply Qmult_le_0_compat; lra).
  split; lra.
Qed.

Lemma percentage_step (a b : Q) (i : Z) :
  (0 <= i <= n)%Z -> 0 <= a /\ a <= 100 -> 0 <= b /\ b <= 100 ->
  Np.valid_level (a + inject_Z i * ((b - a) / inject_Z n)) = true.
Proof.
  intros Hi [Ha0 Ha1] [Hb0 Hb1]. unfold Np.valid_level.
  apply andb_true_intro. rewrite !Qle_bool_iff.
  destruct (Qlt_le_dec a b) as [Hab|Hab].
  - destruct (between_ends a b i Hi) as [? ?]; [lra|]. split; lra.
  - destruct (between_ends_rev a b i Hi Hab) as [? ?]. split; lra.
Qed.


Lemma levels_are_valid (f : nat -> Q) (l : list Q) :
  levels_are f (Z.to_nat n) l ->
  (forall i, (i < Z.to_nat n)%nat -> Np.valid_level (f i) = true) ->
  forallb Np.valid_level l = true.
Proof.
  intros [Hlen Hl] Hf. apply forallb_forall. intros u Hu.
  apply list_elem_of_In, list_elem_of_lookup in Hu. destruct Hu as [i Hi].
  assert (Hlt : (i < Z.to_nat n)%nat).
  { rewrite <- Hlen. apply lookup_lt_Some in Hi. exact Hi. }
  destruct (Hl i Hlt) as (u' & Hu' & Heq). rewrite Hi in Hu'. injection Hu' as <-.
  rewrite <- (Hf i Hlt). unfold Np.valid_level. rewrite Heq. reflexivity.
Qed.

End Levels.

(** ** Running computations *)

Section Run.

Context {A B : Type}.

Lemma bind_Ok (m : M A) (k : A -> M B) (w w1 : world) (a : A) :
  m w = (Ok a, w1) -> bind m k w = k a w1.
Proof. intros H. unfold bind. rewrite H. reflexivity. Qed.

Lemma bind_Raise (m : M A) (k : A -> M B) (w w1 : world) (e : exn) :
  m w = (Raise e, w1) -> bind m k w = (Raise e, w1).
Proof. intros H. unfold bind. rewrite H. reflexivity. Qed.

End Run.

Lemma set_dicts_same (w : world) : set_dicts (dicts w) w = w.
Proof. destruct w. reflexivity. Qed.

Lemma set_canvas_same (w : world) : set_canvas (canvas w) w = w.
Proof. destruct w. reflexivity. Qed.

Lemma dict_truthy_false (m : gmap string pyval) : dict_truthy m = false -> m = ∅.
Proof.
  unfold dict_truthy. intros H. apply negb_false_iff, Nat.eqb_eq in H.
  apply map_size_empty_iff. exact H.
Qed.

Lemma fresh_dict_unbound (w : world) : dicts w !! fresh (dom (dicts w)) = None.
Proof. apply not_elem_of_dom, is_fresh. Qed.

(** [d or {}] yields a dictionary holding the caller's items; it only
    adds to the store. *)
Lemma or_new_dict_run (w : world) (d : option loc) :
  bound w d ->
  exists fk D,
    or_new_dict d w = (Ok fk, set_dicts D w) /\
    D !! fk = Some (items w d) /\
    dicts w ⊆ D.
Proof.
  intros Hb. destruct d as [l|]; simpl in *.
  - destruct Hb as [m Hm]. unfold bind, read_dict. rewrite Hm. simpl.
    destruct (dict_truthy m) eqn:Ht.
    + exists l, (dicts w). unfold ret. rewrite set_dicts_same. auto.
    + apply dict_truthy_false in Ht. subst m.
      eexists _, _. split; [reflexivity|]. split.
      * apply lookup_insert_eq.
      * apply insert_subseteq, fresh_dict_unbound.
  - eexists _, _. split; [reflexivity|]. split.
    + apply lookup_insert_eq.
    + apply insert_subseteq, fresh_dict_unbound.
Qed.

Lemma dict_pop_run (w : world) (d : loc) (m : gmap string pyval)
    (key : string) (dflt : pyval) :
  dicts w !! d = Some m ->
  dict_pop d key dflt w =
    (Ok (default dflt (m !! key)), set_dicts (<[d := delete key m]> (dicts w)) w).
Proof.
  intros Hm. unfold dict_pop, bind, read_dict. rewrite Hm.
  destruct (m !! key) eqn:Hk; simpl.
  - reflexivity.
  - unfold ret. rewrite delete_id by exact Hk.
    rewrite insert_id by exact Hm. rewrite set_dicts_same. reflexivity.
Qed.

Lemma percentile_run (w : world) (y : loc) (a : ndarray) (qs : list Q) :
  ensembles w !! y = Some a -> (0 < shape0 a)%nat ->
  forallb Np.valid_level qs = true ->
  Np.percentile y qs w = (Ok (curves a qs), w).
Proof.
  intros Hy Hrows Hqs. unfold Np.percentile, bind, read_ensemble.
  rewrite Hy, Hqs. unfold shape0 in Hrows.
  destruct (rows a); [simpl in Hrows; lia | reflexivity].
Qed.

Lemma median_run (w : world) (y : loc) (a : ndarray) :
  ensembles w !! y = Some a -> (0 < shape0 a)%nat ->
  Np.median y w = (Ok (median_curve a), w).
Proof.
  intros Hy Hrows. unfold Np.median, bind, read_ensemble. rewrite Hy.
  unfold shape0 in Hrows.
  destruct (rows a) as [|r rs] eqn:Hr; [simpl in Hrows; lia | reflexivity].
Qed.

Lemma length_median_curve (a : ndarray) : length (median_curve a) = shape1 a.
Proof.
  unfold median_curve, Np.columns. rewrite !length_map, length_seq. reflexivity.
Qed.

(** In exact arithmetic [np.median(y, axis=0)] is the curve of the 50th
    percentile. *)
Lemma median_curve_percentile (a : ndarray) :
  (0 < shape0 a)%nat -> median_curve a = curve a 50.
Proof.
  intros Hrows. unfold median_curve, curve.
  apply map_ext_in. intros c Hc. apply median_1d_percentile.
  unfold Np.columns in Hc. apply in_map_iff in Hc. destruct Hc as (j & <- & _).
  rewrite length_map. exact Hrows.
Qed.

Lemma artists_insert (w : world) (c : gmap loc (list artifact)) (ax : loc)
    (l : list artifact) :
  artists (set_canvas (<[ax := l]> c) w) ax = l.
Proof. unfold artists. simpl. rewrite lookup_insert_eq. reflexivity. Qed.

Lemma artists_set_canvas (w : world) (c : gmap loc (list artifact)) (ax : loc) :
  artists (set_canvas c w) ax = default [] (c !! ax).
Proof. reflexivity. Qed.

Lemma axes_line_run (w : world) (ax x : loc) (st : drawstyle) (xv yd : list Q)
    (props : gmap string pyval) :
  vectors w !! x = Some xv -> length xv = length yd ->
  line_accepts (mpl w) st props = true ->
  Plt.axes_line ax st x yd props w =
    (Ok tt, set_canvas (<[ax := artists w ax ++ [Line2D st xv yd props]]> (canvas w)) w).
Proof.
  intros Hx Hlen Hacc.
  unfold Plt.axes_line, bind, read_vector, Plt.line_accepted.
  rewrite Hx, Hlen, Hacc, Nat.eqb_refl. reflexivity.
Qed.

Lemma axes_line_rejected (w : world) (ax x : loc) (st : drawstyle) (xv yd : list Q)
    (props : gmap string pyval) :
  vectors w !! x = Some xv -> line_accepts (mpl w) st props = false ->
  Plt.axes_line ax st x yd props w = (Raise (LibraryError "plot"), w).
Proof.
  intros Hx Hacc.
  unfold Plt.axes_line, bind, read_vector, Plt.line_accepted.
  rewrite Hx, Hacc, andb_false_r. reflexivity.
Qed.

(** Two arrays of one length fit. *)
Lemma broadcast_length_same (n : nat) : Plt.broadcast_length n n = Some n.
Proof. unfold Plt.broadcast_length. rewrite Nat.eqb_refl. reflexivity. Qed.

Lemma fill_between_run (w : world) (x : loc) (xv y1 y2 : list Q)
    (props : gmap string pyval) :
  vectors w !! x = Some xv -> length y1 = length xv -> length y2 = length xv ->
  fill_accepts (mpl w) props = true ->
  Plt.fill_between x y1 y2 props w =
    (Ok tt, set_canvas (<[current_axes w :=
                           artists w (current_axes w)
                           ++ [PolyCollection xv y1 y2 props]]> (canvas w)) w).
Proof.
  intros Hx H1 H2 Hacc.
  unfold Plt.fill_between, bind, read_vector, Plt.fill_accepted.
  rewrite Hx, H1, H2, Hacc, !broadcast_length_same.
  unfold Plt.broadcast_to. rewrite H1, H2, Nat.eqb_refl. reflexivity.
Qed.

Lemma fill_between_rejected (w : world) (x : loc) (xv y1 y2 : list Q)
    (props : gmap string pyval) :
  vectors w !! x = Some xv -> fill_accepts (mpl w) props = false ->
  Plt.fill_between x y1 y2 props w = (Raise (LibraryError "fill_between"), w).
Proof.
  intros Hx Hacc.
  unfold Plt.fill_between, bind, read_vector, Plt.fill_accepted.
  rewrite Hx, Hacc. repeat case_match; reflexivity.
Qed.

Lemma call_keywords_ok (explicit : list (string * pyval))
    (extra : gmap string pyval) :
  Forall (fun kv => extra !! kv.1 = None) explicit ->
  call_keywords explicit extra = Ok (list_to_map explicit ∪ extra).
Proof.
  intros H. unfold call_keywords.
  replace (forallb _ explicit) with true; [reflexivity|].
  symmetry. apply forallb_forall. intros kv Hkv.
  apply bool_decide_eq_true. rewrite Forall_forall in H.
  apply H, list_elem_of_In, Hkv.
Qed.

Lemma length_curve (a : ndarray) (q : Q) : length (curve a q) = shape1 a.
Proof. unfold curve, Np.columns. rewrite !length_map, length_seq. reflexivity. Qed.

Lemma fill_loop_run (x fk : loc) (xv : list Q) (mfk props : gmap string pyval)
    (alpha rc : pyval) (ps : list (list Q * list Q)) :
  call_keywords [("alpha", alpha); ("color", rc)] mfk = Ok props ->
  Forall (fun p => length p.1 = length xv /\ length p.2 = length xv) ps ->
  forall w,
    vectors w !! x = Some xv -> dicts w !! fk = Some mfk ->
    fill_accepts (mpl w) props = true ->
    exists C,
      for_each ps (fun p =>
        extra <- read_dict fk ;;
        props <- lift (call_keywords [("alpha", alpha); ("color", rc)] extra) ;;
        Plt.fill_between x p.1 p.2 props) w = (Ok tt, set_canvas C w) /\
      default [] (C !! current_axes w) =
        artists w (current_axes w)
        ++ map (fun p => PolyCollection xv p.1 p.2 props) ps.
Proof.
  intros Hkw Hps. induction Hps as [|p ps [Hp1 Hp2] Hps IH]; intros w Hx Hfk Hacc.
  - exists (canvas w). simpl. unfold ret. rewrite set_canvas_same, app_nil_r.
    split; reflexivity.
  - simpl for_each.
    set (w1 := set_canvas (<[current_axes w :=
                  artists w (current_axes w)
                  ++ [PolyCollection xv p.1 p.2 props]]> (canvas w)) w).
    destruct (IH w1 Hx Hfk Hacc) as (C & Hrun & HC).
    exists C. split.
    + erewrite bind_Ok.
      * exact Hrun.
      * unfold bind at 1, read_dict. rewrite Hfk. unfold bind, lift.
        rewrite Hkw. apply fill_between_run; assumption.
    + change (current_axes w1) with (current_axes w) in HC.
      rewrite HC. unfold w1. rewrite artists_insert.
      rewrite <- app_assoc. reflexivity.
Qed.

Lemma items_weaken (w : world) (D : gmap loc (gmap string pyval)) (d : option loc) :
  bound w d -> dicts w ⊆ D -> items (set_dicts D w) d = items w d.
Proof.
  intros Hb Hsub. destruct d as [l|]; [|reflexivity]. simpl in *.
  destruct Hb as [m Hm]. rewrite Hm.
  rewrite (lookup_weaken _ _ _ _ Hm Hsub). reflexivity.
Qed.

Lemma bound_weaken (w : world) (D : gmap loc (gmap string pyval)) (d : option loc) :
  bound w d -> dicts w ⊆ D -> bound (set_dicts D w) d.
Proof.
  intros Hb Hsub. destruct d as [l|]; [|exact I]. simpl in *.
  destruct Hb as [m Hm]. exists m. exact (lookup_weaken _ _ _ _ Hm Hsub).
Qed.

Lemma ribbon_levels_valid (n : Z) (pmin pmax : Q) (ls us : list Q) :
  (1 <= n)%Z ->
  0 <= pmin /\ pmin <= 100 -> 0 <= pmax /\ pmax <= 100 ->
  levels_are (lower_level pmin n) (Z.to_nat n) ls ->
  levels_are (upper_level pmax n) (Z.to_nat n) us ->
  forallb Np.valid_level ls = true /\ forallb Np.valid_level us = true.
Proof.
  intros Hn Hmin Hmax Hls Hus. split.
  - apply (levels_are_valid n _ _ Hls). intros i Hi.
    apply percentage_step; [exact Hn | lia | exact Hmin | lra].
  - apply (levels_are_valid n _ _ Hus). intros i Hi.
    apply percentage_step; [exact Hn | lia | lra | exact Hmax].
Qed.

Lemma zip_curves_lengths (a : ndarray) (xv : list Q) (ls us : list Q) :
  length xv = shape1 a ->
  Forall (fun p : list Q * list Q => length p.1 = length xv /\ length p.2 = length xv)
         (zip (curves a ls) (curves a us)).
Proof.
  intros Hlen. apply Forall_forall. intros [p1 p2] Hp.
  apply elem_of_zip_l in Hp as H1. apply elem_of_zip_r in Hp as H2.
  simpl in *. unfold curves in *.
  apply list_elem_of_fmap in H1 as (q1 & -> & _).
  apply list_elem_of_fmap in H2 as (q2 & -> & _).
  rewrite !length_curve. auto.
Qed.

Lemma ax_or_gca_run (w : world) (ax : option loc) :
  ax_or_gca ax w = (Ok (target_axes w ax), w).
Proof. destruct ax; reflexivity. Qed.

(** ** The stages of [ribbon_plot] *)

Lemma dict_truthy_true (m : gmap string pyval) : dict_truthy m = true -> m <> ∅.
Proof.
  unfold dict_truthy. intros H ->. rewrite map_size_empty in H. discriminate.
Qed.

(** [d or {}] is the caller's dictionary when that is not empty, and
    otherwise a dictionary the store did not hold. *)
Lemma or_new_dict_origin (w : world) (d : option loc) :
  bound w d ->
  exists fk D,
    or_new_dict d w = (Ok fk, set_dicts D w) /\
    D !! fk = Some (items w d) /\
    dicts w ⊆ D /\
    ((d = Some fk /\ items w d <> ∅) \/
     (dicts w !! fk = None /\ items w d = ∅)).
Proof.
  intros Hb. destruct d as [l|]; simpl in *.
  - destruct Hb as [m Hm]. unfold bind, read_dict. rewrite Hm. simpl.
    destruct (dict_truthy m) eqn:Ht.
    + exists l, (dicts w). unfold ret. rewrite set_dicts_same.
      split; [reflexivity|]. split; [exact Hm|]. split; [reflexivity|].
      left. split; [reflexivity|]. intros ->. discriminate Ht.
    + apply dict_truthy_false in Ht. subst m.
      eexists _, _. split; [reflexivity|]. split; [apply lookup_insert_eq|].
      split; [apply insert_subseteq, fresh_dict_unbound|].
      right. split; [apply fresh_dict_unbound | reflexivity].
  - eexists _, _. split; [reflexivity|]. split; [apply lookup_insert_eq|].
    split; [apply insert_subseteq, fresh_dict_unbound|].
    right. split; [apply fresh_dict_unbound | reflexivity].
Qed.

Lemma ribbon_plot_setup (w : world) (x y : loc) (xv : list Q) (a : ndarray)
    (n : Z) (pmin pmax : Q) (rc : pyval) (pm : bool) (lc : pyval)
    (ax fkw lkw : option loc) :
  (1 <= n)%Z ->
  ribbon_data w x y xv a fkw lkw ->
  percentages pmin pmax ->
  exists fk lk D ls us,
    lower_levels pmin n = Ok ls /\
    upper_levels pmax n = Ok us /\
    levels_are (lower_level pmin n) (Z.to_nat n) ls /\
    levels_are (upper_level pmax n) (Z.to_nat n) us /\
    D !! fk = Some (items w fkw) /\
    D !! lk = Some (items w lkw) /\
    dicts w ⊆ D /\
    ((fkw = Some fk /\ items w fkw <> ∅) \/
     (dicts w !! fk = None /\ items w fkw = ∅)) /\
    (fk = lk -> fkw = lkw) /\
    (fkw = lkw -> items w fkw <> ∅ -> fk = lk) /\
    ribbon_plot x y n pmin pmax rc pm lc ax fkw lkw w =
      (for_each (zip (curves a ls) (curves a us)) (fun p =>
         extra <- read_dict fk ;;
         props <- lift (call_keywords
                          [("alpha", ribbon_alpha w fkw n); ("color", rc)] extra) ;;
         Plt.fill_between x p.1 p.2 props) ;;
       (if pm then
          step <- dict_pop fk "step" PNone ;;
          med <- Np.median y ;;
          extra <- read_dict lk ;;
          props <- lift (call_keywords [("color", lc)] extra) ;;
          if truthy step then Plt.step x med props else Plt.plot x med props
        else ret tt) ;;
       Plt.gca)
      (set_current_axes (target_axes w ax)
         (set_dicts (<[fk := delete "alpha" (items w fkw)]> D) w)).
Proof.
  intros Hn (Hx & Hy & Hlen & Hrows & Hbf & Hbl) [Hmin Hmax].
  destruct (lower_levels_spec pmin n Hn) as (ls & Hls & Hlsa).
  destruct (upper_levels_spec pmax n Hn) as (us & Hus & Husa).
  destruct (ribbon_levels_valid n pmin pmax ls us Hn Hmin Hmax Hlsa Husa)
    as [Hvl Hvu].
  destruct (or_new_dict_origin w fkw Hbf) as (fk & D1 & Hrun1 & HD1 & Hsub1 & Ho1).
  destruct (or_new_dict_origin (set_dicts D1 w) lkw (bound_weaken _ _ _ Hbl Hsub1))
    as (lk & D2 & Hrun2 & HD2 & Hsub2 & Ho2).
  rewrite (items_weaken _ _ _ Hbl Hsub1) in HD2, Ho2.
  change (set_dicts D2 (set_dicts D1 w)) with (set_dicts D2 w) in Hrun2.
  change (dicts (set_dicts D1 w)) with D1 in Hsub2, Ho2.
  pose proof (lookup_weaken _ _ _ _ HD1 Hsub2) as HD2f.
  exists fk, lk, D2, ls, us.
  repeat (split; [assumption|]).
  split; [etrans; eassumption|]. split; [exact Ho1|].
  split; [|split].
  - intros <-. destruct Ho2 as [[Hl _]|[Hl _]]; [|congruence].
    destruct Ho1 as [[Hf _]|[Hf _]]; [congruence|].
    subst lkw. destruct Hbl as [ml Hml]. congruence.
  - intros <- Hne. destruct Ho1 as [[Hf _]|[_ He]]; [|contradiction].
    destruct Ho2 as [[Hl _]|[_ He]]; [congruence | contradiction].
  - unfold ribbon_plot.
    erewrite bind_Ok; [|unfold lift; rewrite Hls; reflexivity].
    erewrite bind_Ok; [|apply (percentile_run _ y a); assumption].
    erewrite bind_Ok; [|unfold lift; rewrite Hus; reflexivity].
    erewrite bind_Ok; [|apply (percentile_run _ y a); assumption].
    erewrite bind_Ok; [|exact Hrun1].
    erewrite bind_Ok; [|exact Hrun2].
    erewrite bind_Ok;
      [|unfold lift, py_truediv;
        destruct (Z.eqb_spec n 0) as [?|_]; [lia|reflexivity]].
    erewrite bind_Ok; [|apply (dict_pop_run _ fk (items w fkw)); exact HD2f].
    rewrite (bind_Ok _ _ _ _ _ (ax_or_gca_run _ ax)).
    erewrite bind_Ok; [|reflexivity].
    reflexivity.
Qed.

Lemma call_keywords_clash (explicit : list (string * pyval))
    (extra : gmap string pyval) (k : string) (v v' : pyval) :
  In (k, v) explicit -> extra !! k = Some v' ->
  call_keywords explicit extra = Raise TypeError.
Proof.
  intros Hin Hk. unfold call_keywords.
  destruct (forallb _ explicit) eqn:Hall; [|reflexivity].
  rewrite forallb_forall in Hall. specialize (Hall _ Hin).
  apply bool_decide_eq_true in Hall. simpl in Hall. congruence.
Qed.

Lemma zip_curves_nonempty (a : ndarray) (n : nat) (ls us : list Q) :
  (0 < n)%nat -> length ls = n -> length us = n ->
  exists p ps, zip (curves a ls) (curves a us) = p :: ps.
Proof.
  intros Hn Hl Hu. destruct ls as [|ql ls]; [simpl in Hl; lia|].
  destruct us as [|qu us]; [simpl in Hu; lia|].
  simpl. eauto.
Qed.

(** With a negative ribbon count the call ends in [np.linspace]. *)
Lemma ribbon_plot_negative (w : world) (x y : loc) (n : Z) (pmin pmax : Q)
    (rc : pyval) (pm : bool) (lc : pyval) (ax fkw lkw : option loc) :
  (n < 0)%Z ->
  ribbon_plot x y n pmin pmax rc pm lc ax fkw lkw w
    = (Raise (LibraryError "np.linspace"), w).
Proof.
  intros Hn. unfold ribbon_plot, lower_levels, Np.linspace.
  destruct (Z.ltb_spec n 0); [reflexivity | lia].
Qed.

(** With a ribbon count of zero it ends in the division. *)
Lemma ribbon_plot_zero (w : world) (x y : loc) (a : ndarray) (pmin pmax : Q)
    (rc : pyval) (pm : bool) (lc : pyval) (ax fkw lkw : option loc) :
  ensembles w !! y = Some a -> (0 < shape0 a)%nat ->
  bound w fkw -> bound w lkw ->
  exists D,
    ribbon_plot x y 0 pmin pmax rc pm lc ax fkw lkw w
      = (Raise ZeroDivisionError, set_dicts D w) /\
    dicts w ⊆ D.
Proof.
  intros Hy Hrows Hbf Hbl.
  destruct (or_new_dict_run w fkw Hbf) as (fk & D1 & Hrun1 & _ & Hsub1).
  destruct (or_new_dict_run (set_dicts D1 w) lkw (bound_weaken _ _ _ Hbl Hsub1))
    as (lk & D2 & Hrun2 & _ & Hsub2).
  exists D2. split; [|etrans; [exact Hsub1 | exact Hsub2]].
  pose proof (percentile_run w y a [] Hy Hrows eq_refl) as Hp.
  unfold ribbon_plot.
  erewrite bind_Ok; [|reflexivity].
  erewrite bind_Ok; [|exact Hp].
  erewrite bind_Ok; [|reflexivity].
  erewrite bind_Ok; [|exact Hp].
  erewrite bind_Ok; [|exact Hrun1].
  erewrite bind_Ok; [|exact Hrun2].
  reflexivity.
Qed.


(** The first [fill_between] call fails when the fill-style dictionary
    repeats [color] or matplotlib rejects the keywords of the bands:
    nothing has been drawn by then. *)
Lemma ribbon_plot_fill_failure (w : world) (x y : loc) (xv : list Q) (a : ndarray)
    (n : Z) (pmin pmax : Q) (rc : pyval) (pm : bool) (lc : pyval)
    (ax fkw lkw : option loc) (e : exn) :
  (1 <= n)%Z ->
  ribbon_data w x y xv a fkw lkw ->
  percentages pmin pmax ->
  fill_outcome w fkw n rc = Some e ->
  exists w',
    ribbon_plot x y n pmin pmax rc pm lc ax fkw lkw w = (Raise e, w') /\
    canvas w' = canvas w.
Proof.
  intros Hn Hdata Hpc Hout.
  destruct (ribbon_plot_setup w x y xv a n pmin pmax rc pm lc ax fkw lkw
              Hn Hdata Hpc)
    as (fk & lk & D & ls & us & _ & _ & [Hll _] & [Hlu _] & _ & _ & _ & _ & _ & _
        & Hrun).
  destruct Hdata as (Hx & _).
  destruct (zip_curves_nonempty a (Z.to_nat n) ls us ltac:(lia) Hll Hlu)
    as (p & ps & Hzip).
  exists (set_current_axes (target_axes w ax)
            (set_dicts (<[fk := delete "alpha" (items w fkw)]> D) w)).
  split; [|reflexivity].
  rewrite Hrun, Hzip. simpl for_each.
  apply bind_Raise, bind_Raise.
  erewrite bind_Ok;
    [|unfold read_dict; simpl; rewrite lookup_insert_eq; reflexivity].
  unfold fill_outcome in Hout.
  destruct (items w fkw !! "color") as [v|] eqn:Hcol.
  - injection Hout as <-. apply bind_Raise. unfold lift.
    erewrite (call_keywords_clash _ _ "color");
      [reflexivity | right; left; reflexivity |].
    rewrite lookup_delete_ne by discriminate. exact Hcol.
  - destruct (fill_accepts _ _) eqn:Hacc; [discriminate|]. injection Hout as <-.
    erewrite bind_Ok.
    + apply (fill_between_rejected _ _ xv); [exact Hx | exact Hacc].
    + unfold lift. rewrite call_keywords_ok; [reflexivity|].
      repeat constructor; simpl.
      * apply lookup_delete_eq.
      * rewrite lookup_delete_ne by discriminate. exact Hcol.
Qed.

(** The bands are drawn as soon as the fill-style dictionary does not
    repeat [color] and matplotlib accepts the keywords of the bands,
    whatever the line-style dictionary holds. *)
Lemma ribbon_plot_fills (w : world) (x y : loc) (xv : list Q) (a : ndarray)
    (n : Z) (pmin pmax : Q) (rc : pyval) (pm : bool) (lc : pyval)
    (ax fkw lkw : option loc) :
  (1 <= n)%Z ->
  ribbon_data w x y xv a fkw lkw ->
  percentages pmin pmax ->
  fill_outcome w fkw n rc = None ->
  let axl := target_axes w ax in
  let mf := delete "alpha" (items w fkw) in
  exists fk lk D C ls us,
    lower_levels pmin n = Ok ls /\
    upper_levels pmax n = Ok us /\
    length ls = Z.to_nat n /\
    length us = Z.to_nat n /\
    D !! fk = Some mf /\
    D !! lk = Some (if decide (fk = lk) then mf else items w lkw) /\
    (fk = lk -> fkw = lkw) /\
    (fkw = lkw -> items w fkw <> ∅ -> fk = lk) /\
    default [] (C !! axl) =
      artists w axl ++ bands w xv fkw n rc (curves a ls) (curves a us) /\
    ribbon_plot x y n pmin pmax rc pm lc ax fkw lkw w =
      ((if pm then
          step <- dict_pop fk "step" PNone ;;
          med <- Np.median y ;;
          extra <- read_dict lk ;;
          props <- lift (call_keywords [("color", lc)] extra) ;;
          if truthy step then Plt.step x med props else Plt.plot x med props
        else ret tt) ;;
       Plt.gca)
      (set_canvas C (set_current_axes axl (set_dicts D w))).
Proof.
  intros Hn Hdata Hpc Hout axl mf.
  assert (Hcf : items w fkw !! "color" = None).
  { unfold fill_outcome in Hout. destruct (items w fkw !! "color");
      [discriminate | reflexivity]. }
  assert (Hacc : fill_accepts (mpl w) (fill_props w fkw n rc) = true).
  { unfold fill_outcome in Hout. rewrite Hcf in Hout.
    destruct (fill_accepts _ _); [reflexivity | discriminate]. }
  destruct (ribbon_plot_setup w x y xv a n pmin pmax rc pm lc ax fkw lkw
              Hn Hdata Hpc)
    as (fk & lk & D & ls & us & Hls & Hus & [Hll _] & [Hlu _] & HDf & HDl
        & _ & _ & Hsame & Halias & Hrun).
  destruct Hdata as (Hx & Hy & Hlen & Hrows & _).
  set (D3 := <[fk := mf]> D).
  set (w4 := set_current_axes axl (set_dicts D3 w)).
  assert (Hkw : call_keywords [("alpha", ribbon_alpha w fkw n); ("color", rc)] mf
                = Ok (fill_props w fkw n rc)).
  { apply call_keywords_ok. repeat constructor; simpl.
    - apply lookup_delete_eq.
    - unfold mf. rewrite lookup_delete_ne by discriminate. exact Hcf. }
  destruct (fill_loop_run x fk xv mf (fill_props w fkw n rc)
              (ribbon_alpha w fkw n) rc (zip (curves a ls) (curves a us)) Hkw
              (zip_curves_lengths a xv ls us Hlen) w4 Hx)
    as (C & Hloop & HC).
  { unfold w4, D3. simpl. apply lookup_insert_eq. }
  { exact Hacc. }
  exists fk, lk, D3, C, ls, us.
  split; [exact Hls|]. split; [exact Hus|].
  split; [exact Hll|]. split; [exact Hlu|].
  split; [apply lookup_insert_eq|].
  split; [|split; [exact Hsame|split; [exact Halias|split; [exact HC|]]]].
  - unfold D3. destruct (decide (fk = lk)) as [<-|Hne].
    + apply lookup_insert_eq.
    + rewrite lookup_insert_ne by exact Hne. exact HDl.
  - rewrite Hrun. erewrite bind_Ok; [|exact Hloop]. reflexivity.
Qed.

Lemma line_items_color (w : world) (fkw lkw : option loc) :
  line_items w fkw lkw !! "color" = items w lkw !! "color".
Proof.
  unfold line_items. destruct (decide (lkw = fkw)); [|reflexivity].
  rewrite !lookup_delete_ne by discriminate. reflexivity.
Qed.

(** How a call ends once the bands are drawn: it returns, unless it is to
    draw the median line and that call fails. *)
Lemma ribbon_plot_outcome (w : world) (x y : loc) (xv : list Q) (a : ndarray)
    (n : Z) (pmin pmax : Q) (rc : pyval) (pm : bool) (lc : pyval)
    (ax fkw lkw : option loc) :
  (1 <= n)%Z ->
  ribbon_data w x y xv a fkw lkw ->
  percentages pmin pmax ->
  fill_outcome w fkw n rc = None ->
  let axl := target_axes w ax in
  let ending := if pm then line_outcome w fkw lkw lc else None in
  exists w' ls us,
    lower_levels pmin n = Ok ls /\
    upper_levels pmax n = Ok us /\
    length ls = Z.to_nat n /\
    length us = Z.to_nat n /\
    ribbon_plot x y n pmin pmax rc pm lc ax fkw lkw w
      = (match ending with None => Ok axl | Some e => Raise e end, w') /\
    artists w' axl =
      artists w axl
      ++ bands w xv fkw n rc (curves a ls) (curves a us)
      ++ (if pm
          then match ending with
               | None => [median_line w xv (median_curve a) fkw lkw lc]
               | Some _ => []
               end
          else []).
Proof.
  intros Hn Hdata Hpc Hout axl ending.
  destruct (ribbon_plot_fills w x y xv a n pmin pmax rc pm lc ax fkw lkw
              Hn Hdata Hpc Hout)
    as (fk & lk & D & C & ls & us & Hls & Hus & Hll & Hlu & HDf & HDl & Hsame
        & Halias & HC & Hrun).
  fold axl in HC, Hrun.
  destruct Hdata as (Hx & Hy & Hlen & Hrows & _).
  set (mf := delete "alpha" (items w fkw)) in *.
  set (w5 := set_canvas C (set_current_axes axl (set_dicts D w))) in *.
  destruct pm; cycle 1.
  { exists w5, ls, us. do 4 (split; [assumption|]). split.
    - rewrite Hrun. reflexivity.
    - unfold w5. rewrite artists_set_canvas, HC, app_nil_r. reflexivity. }
  set (D4 := <[fk := delete "step" mf]> D).
  set (w6 := set_canvas C (set_current_axes axl (set_dicts D4 w))).
  assert (HD4 : D4 !! lk = Some (line_items w fkw lkw)).
  { unfold D4, line_items. destruct (decide (fk = lk)) as [<-|Hne].
    - rewrite lookup_insert_eq, <- (Hsame eq_refl).
      destruct (decide (fkw = fkw)); [reflexivity | congruence].
    - rewrite lookup_insert_ne by exact Hne. rewrite HDl.
      destruct (decide (lkw = fkw)) as [Heq|_]; [|reflexivity].
      destruct (dict_truthy (items w fkw)) eqn:Ht.
      + apply dict_truthy_true in Ht. elim Hne. apply Halias; [auto | exact Ht].
      + apply dict_truthy_false in Ht. rewrite Heq, Ht, !delete_empty. reflexivity. }
  assert (Hpop : dict_pop fk "step" PNone w5
                 = (Ok (default PNone (items w fkw !! "step")), w6)).
  { unfold w5, w6. rewrite (dict_pop_run _ fk mf) by exact HDf.
    unfold mf. rewrite lookup_delete_ne by discriminate. reflexivity. }
  assert (Hread : read_dict lk w6 = (Ok (line_items w fkw lkw), w6)).
  { unfold read_dict. simpl. rewrite HD4. reflexivity. }
  assert (Hstage : forall r w',
    (extra <- read_dict lk ;;
     props <- lift (call_keywords [("color", lc)] extra) ;;
     if truthy (default PNone (items w fkw !! "step"))
     then Plt.step x (median_curve a) props
     else Plt.plot x (median_curve a) props) w6 = (r, w') ->
    ribbon_plot x y n pmin pmax rc true lc ax fkw lkw w
      = (match r with Ok _ => Ok (current_axes w') | Raise e => Raise e end, w')).
  { intros r w' Hr. rewrite Hrun. unfold bind at 1.
    rewrite (bind_Ok _ _ _ _ _ Hpop).
    rewrite (bind_Ok _ _ _ _ _ (median_run w6 y a Hy Hrows)).
    rewrite Hr. destruct r; reflexivity. }
  unfold ending, line_outcome.
  rewrite <- (line_items_color w fkw lkw).
  destruct (line_items w fkw lkw !! "color") as [v|] eqn:Hcl.
  { exists w6, ls, us. do 4 (split; [assumption|]). split.
    - rewrite (Hstage (Raise TypeError) w6); [reflexivity|].
      rewrite (bind_Ok _ _ _ _ _ Hread). apply bind_Raise. unfold lift.
      erewrite (call_keywords_clash _ _ "color");
        [reflexivity | left; reflexivity | exact Hcl].
    - unfold w6. rewrite artists_set_canvas, HC, app_nil_r. reflexivity. }
  assert (Hkw : call_keywords [("color", lc)] (line_items w fkw lkw)
                = Ok (line_props w fkw lkw lc)).
  { apply call_keywords_ok. repeat constructor. exact Hcl. }
  destruct (line_accepts (mpl w) (median_style w fkw) (line_props w fkw lkw lc))
    eqn:Hacc.
  - set (w7 := set_canvas (<[axl := default [] (C !! axl)
                ++ [median_line w xv (median_curve a) fkw lkw lc]]> C) w6).
    exists w7, ls, us.
    do 4 (split; [assumption|]). split.
    + rewrite (Hstage (Ok tt) w7); [reflexivity|].
      rewrite (bind_Ok _ _ _ _ _ Hread).
      erewrite bind_Ok; [|unfold lift; rewrite Hkw; reflexivity].
      unfold median_line, median_style in *.
      destruct (truthy (default PNone (items w fkw !! "step")));
        unfold Plt.step, Plt.plot;
        (erewrite bind_Ok; [|reflexivity]);
        rewrite (axes_line_run _ _ _ _ xv)
          by (try rewrite length_median_curve; assumption);
        reflexivity.
    + unfold w7. rewrite artists_insert, HC, <- app_assoc. reflexivity.
  - exists w6, ls, us. do 4 (split; [assumption|]). split.
    + rewrite (Hstage (Raise (LibraryError "plot")) w6); [reflexivity|].
      rewrite (bind_Ok _ _ _ _ _ Hread).
      erewrite bind_Ok; [|unfold lift; rewrite Hkw; reflexivity].
      unfold median_style in Hacc.
      destruct (truthy (default PNone (items w fkw !! "step")));
        unfold Plt.step, Plt.plot;
        (erewrite bind_Ok; [|reflexivity]);
        apply (axes_line_rejected _ _ _ _ xv); assumption.
    + unfold w6. rewrite artists_set_canvas, HC, app_nil_r. reflexivity.
Qed.

(** A call that returns: the ribbon count was positive, the keywords
    were in order, and the bands and the median line are on the axes. *)
Lemma ribbon_plot_returned (w : world) (x y : loc) (xv : list Q) (a : ndarray)
    (n : Z) (pmin pmax : Q) (rc : pyval) (pm : bool) (lc : pyval)
    (ax fkw lkw : option loc) (v : loc) (w' : world) :
  ribbon_data w x y xv a fkw lkw ->
  percentages pmin pmax ->
  ribbon_plot x y n pmin pmax rc pm lc ax fkw lkw w = (Ok v, w') ->
  (1 <= n)%Z /\
  ribbon_keywords w fkw lkw n rc pm lc /\
  v = target_axes w ax /\
  exists ls us,
    lower_levels pmin n = Ok ls /\
    upper_levels pmax n = Ok us /\
    length ls = Z.to_nat n /\
    length us = Z.to_nat n /\
    artists w' v =
      artists w v
      ++ bands w xv fkw n rc (curves a ls) (curves a us)
      ++ (if pm then [median_line w xv (median_curve a) fkw lkw lc] else []).
Proof.
  intros Hdata Hpc Hret.
  assert (Hn : (1 <= n)%Z).
  { destruct (Z_lt_le_dec n 0%Z) as [Hneg|Hnn].
    - rewrite ribbon_plot_negative in Hret by exact Hneg. discriminate.
    - destruct (Z.eq_dec n 0%Z) as [->|Hnz]; [|lia].
      destruct Hdata as (_ & Hy & _ & Hrows & Hbf & Hbl).
      destruct (ribbon_plot_zero w x y a pmin pmax rc pm lc ax fkw lkw
                  Hy Hrows Hbf Hbl) as (D & Hz & _).
      rewrite Hz in Hret. discriminate. }
  split; [exact Hn|].
  destruct (fill_outcome w fkw n rc) as [e|] eqn:Hout.
  { destruct (ribbon_plot_fill_failure w x y xv a n pmin pmax rc pm lc ax fkw lkw
                e Hn Hdata Hpc Hout) as (w1 & Hfail & _).
    rewrite Hfail in Hret. discriminate. }
  destruct (ribbon_plot_outcome w x y xv a n pmin pmax rc pm lc ax fkw lkw
              Hn Hdata Hpc Hout)
    as (w1 & ls & us & Hls & Hus & Hll & Hlu & Hrun & Hart).
  rewrite Hrun in Hret.
  assert (Hline : (if pm then line_outcome w fkw lkw lc else None) = None).
  { destruct (if pm then line_outcome w fkw lkw lc else None);
      [discriminate | reflexivity]. }
  rewrite Hline in Hret, Hart. injection Hret as <- <-.
  split; [|split; [reflexivity|]].
  - unfold fill_outcome in Hout. unfold ribbon_keywords.
    destruct (items w fkw !! "color"); [discriminate|].
    destruct (fill_accepts _ _); [|discriminate].
    split; [reflexivity|]. split; [reflexivity|].
    intros ->. unfold line_outcome in Hline.
    destruct (items w lkw !! "color"); [discriminate|].
    destruct (line_accepts _ _ _); [|discriminate].
    split; reflexivity.
  - exists ls, us. repeat (split; [assumption|]).
    rewrite Hart. destruct pm; reflexivity.
Qed.

(** The other way round: on such data and keywords the call returns. *)
Lemma ribbon_plot_run (w : world) (x y : loc) (xv : list Q) (a : ndarray)
    (n : Z) (pmin pmax : Q) (rc : pyval) (pm : bool) (lc : pyval)
    (ax fkw lkw : option loc) :
  (1 <= n)%Z ->
  ribbon_data w x y xv a fkw lkw ->
  percentages pmin pmax ->
  ribbon_keywords w fkw lkw n rc pm lc ->
  exists w', ribbon_plot x y n pmin pmax rc pm lc ax fkw lkw w
             = (Ok (target_axes w ax), w').
Proof.
  intros Hn Hdata Hpc (Hcf & Hfa & Hline).
  assert (Hout : fill_outcome w fkw n rc = None).
  { unfold fill_outcome. rewrite Hcf, Hfa. reflexivity. }
  destruct (ribbon_plot_outcome w x y xv a n pmin pmax rc pm lc ax fkw lkw
              Hn Hdata Hpc Hout)
    as (w1 & ls & us & _ & _ & _ & _ & Hrun & _).
  exists w1. rewrite Hrun. destruct pm; [|reflexivity].
  destruct (Hline eq_refl) as [Hcl Hla]. unfold line_outcome.
  rewrite Hcl, Hla. reflexivity.
Qed.

(** ** Frame rules *)

Section Frame.

Context {T : Type} (f : world -> T).

Lemma preserves_ret {A} (a : A) : preserves f (ret a).
Proof. intros w. reflexivity. Qed.

Lemma preserves_raise {A} (e : exn) : preserves f (@raise A e).
Proof. intros w. reflexivity. Qed.

Lemma preserves_lift {A} (o : outcome A) : preserves f (lift o).
Proof. intros w. reflexivity. Qed.

Lemma preserves_bind {A B} (m : M A) (k : A -> M B) :
  preserves f m -> (forall a, preserves f (k a)) -> preserves f (bind m k).
Proof.
  intros Hm Hk w. unfold bind. specialize (Hm w).
  destruct (m w) as [[a|e] w1]; simpl in *.
  - rewrite Hk. exact Hm.
  - exact Hm.
Qed.

Lemma preserves_for_each {A} (l : list A) (body : A -> M unit) :
  (forall a, preserves f (body a)) -> preserves f (for_each l body).
Proof.
  intros Hb. induction l as [|a l IH]; simpl.
  - apply preserves_ret.
  - apply preserves_bind; [apply Hb | intros _; exact IH].
Qed.

Lemma preserves_read_vector (x : loc) : preserves f (read_vector x).
Proof. intros w. unfold read_vector. destruct (vectors w !! x); reflexivity. Qed.

Lemma preserves_read_ensemble (y : loc) : preserves f (read_ensemble y).
Proof. intros w. unfold read_ensemble. destruct (ensembles w !! y); reflexivity. Qed.

Lemma preserves_read_dict (d : loc) : preserves f (read_dict d).
Proof. intros w. unfold read_dict. destruct (dicts w !! d); reflexivity. Qed.

Lemma preserves_gca : preserves f Plt.gca.
Proof. intros w. reflexivity. Qed.

Lemma preserves_line_accepted (st : drawstyle) (props : gmap string pyval) :
  preserves f (Plt.line_accepted st props).
Proof. intros w. reflexivity. Qed.

Lemma preserves_fill_accepted (props : gmap string pyval) :
  preserves f (Plt.fill_accepted props).
Proof. intros w. reflexivity. Qed.

Lemma preserves_or_empty_items (d : option loc) : preserves f (or_empty_items d).
Proof. destruct d; [apply preserves_read_dict | apply preserves_ret]. Qed.

Lemma preserves_getitem (y : loc) (idx : Z) : preserves f (getitem y idx).
Proof.
  apply preserves_bind; [apply preserves_read_ensemble|]. intros a.
  cbv zeta. repeat case_match; first [apply preserves_ret | apply preserves_raise].
Qed.

Lemma preserves_percentile (y : loc) (qs : list Q) : preserves f (Np.percentile y qs).
Proof.
  apply preserves_bind; [apply preserves_read_ensemble|]. intros a.
  cbv zeta. repeat case_match; first [apply preserves_ret | apply preserves_raise].
Qed.

Lemma preserves_median (y : loc) : preserves f (Np.median y).
Proof.
  apply preserves_bind; [apply preserves_read_ensemble|]. intros a.
  cbv zeta. repeat case_match; first [apply preserves_ret | apply preserves_raise].
Qed.

(** Drawing, selecting the current axes and consuming randomness leave
    alone whatever does not look at the canvas, the current axes or the
    generator. *)
Hypothesis f_canvas : forall c w, f (set_canvas c w) = f w.
Hypothesis f_current_axes : forall ax w, f (set_current_axes ax w) = f w.
Hypothesis f_drawn : forall n w, f (set_drawn n w) = f w.

Lemma preserves_add_artist (ax : loc) (a : artifact) : preserves f (Plt.add_artist ax a).
Proof. intros w. apply f_canvas. Qed.

Lemma preserves_sca (ax : loc) : preserves f (Plt.sca ax).
Proof. intros w. apply f_current_axes. Qed.

Lemma preserves_random_choice (a : list Z) (size : Z) :
  preserves f (Np.random_choice a size).
Proof.
  intros w. unfold Np.random_choice.
  repeat case_match; simpl; first [reflexivity | apply f_drawn].
Qed.

Lemma preserves_ax_or_gca (ax : option loc) : preserves f (ax_or_gca ax).
Proof. destruct ax; [apply preserves_ret | apply preserves_gca]. Qed.

Lemma preserves_axes_line (ax : loc) (st : drawstyle) (x : loc) (yd : list Q)
    (props : gmap string pyval) :
  preserves f (Plt.axes_line ax st x yd props).
Proof.
  apply preserves_bind; [apply preserves_read_vector|]. intros xv.
  apply preserves_bind; [apply preserves_line_accepted|]. intros accepted.
  case_match; [apply preserves_add_artist | apply preserves_raise].
Qed.

Lemma preserves_fill_between (x : loc) (y1 y2 : list Q) (props : gmap string pyval) :
  preserves f (Plt.fill_between x y1 y2 props).
Proof.
  apply preserves_bind; [apply preserves_read_vector|]. intros xv.
  apply preserves_bind; [apply preserves_fill_accepted|]. intros accepted.
  repeat case_match; try apply preserves_raise.
  apply preserves_bind; [apply preserves_gca|]. intros ax.
  apply preserves_add_artist.
Qed.

Lemma preserves_plot (st : bool) (x : loc) (yd : list Q) (props : gmap string pyval) :
  preserves f (if st then Plt.step x yd props else Plt.plot x yd props).
Proof.
  destruct st; (apply preserves_bind; [apply preserves_gca|]); intros ax;
    apply preserves_axes_line.
Qed.

Lemma preserves_spaghetti_plot (x y : loc) (n_samples : option Z)
    (indices : option (list Z)) (ax plot_kwargs : option loc) :
  preserves f (spaghetti_plot x y n_samples indices ax plot_kwargs).
Proof.
  unfold spaghetti_plot. case_match; [apply preserves_raise|].
  apply preserves_bind.
  { case_match; [|apply preserves_ret].
    apply preserves_bind; [apply preserves_read_ensemble|]. intros a.
    apply preserves_bind; [apply preserves_random_choice|]. intros idxs.
    apply preserves_ret. }
  intros idxs. apply preserves_bind; [apply preserves_ax_or_gca|]. intros axl.
  destruct idxs as [idxs|]; [|apply preserves_raise].
  apply preserves_bind; [|intros _; apply preserves_ret].
  apply preserves_for_each. intros idx.
  apply preserves_bind; [apply preserves_getitem|]. intros row.
  apply preserves_bind; [apply preserves_or_empty_items|]. intros props.
  apply preserves_axes_line.
Qed.

(** The part of [ribbon_plot] that draws the bands. *)
Lemma preserves_fill_loop (x fk : loc) (alpha rc : pyval)
    (ps : list (list Q * list Q)) :
  preserves f (for_each ps (fun p =>
    extra <- read_dict fk ;;
    props <- lift (call_keywords [("alpha", alpha); ("color", rc)] extra) ;;
    Plt.fill_between x p.1 p.2 props)).
Proof.
  apply preserves_for_each. intros p.
  apply preserves_bind; [apply preserves_read_dict|]. intros extra.
  apply preserves_bind; [apply preserves_lift|]. intros props.
  apply preserves_fill_between.
Qed.

(** And the part that draws the median, once [step] has been popped. *)
Lemma preserves_median_line (x y lk : loc) (lc step : pyval) :
  preserves f (
    med <- Np.median y ;;
    extra <- read_dict lk ;;
    props <- lift (call_keywords [("color", lc)] extra) ;;
    if truthy step then Plt.step x med props else Plt.plot x med props).
Proof.
  apply preserves_bind; [apply preserves_median|]. intros med.
  apply preserves_bind; [apply preserves_read_dict|]. intros extra.
  apply preserves_bind; [apply preserves_lift|]. intros props.
  apply preserves_plot.
Qed.

(** Writes to dictionaries leave alone whatever does not look at them. *)
Hypothesis f_dicts : forall d w, f (set_dicts d w) = f w.

Lemma preserves_new_dict : preserves f new_dict.
Proof. intros w. apply f_dicts. Qed.

Lemma preserves_or_new_dict (d : option loc) : preserves f (or_new_dict d).
Proof.
  destruct d; [|apply preserves_new_dict].
  apply preserves_bind; [apply preserves_read_dict|]. intros m.
  case_match; [apply preserves_ret | apply preserves_new_dict].
Qed.

Lemma preserves_dict_pop (d : loc) (key : string) (dflt : pyval) :
  preserves f (dict_pop d key dflt).
Proof.
  apply preserves_bind; [apply preserves_read_dict|]. intros m.
  case_match; [|apply preserves_ret].
  apply preserves_bind; [|intros _; apply preserves_ret].
  intros w. apply f_dicts.
Qed.

Lemma preserves_ribbon_plot (x y : loc) (n_ribbons : Z)
    (percentile_min percentile_max : Q) (ribbon_color : pyval)
    (plot_median : bool) (line_color : pyval)
    (ax fill_kwargs line_kwargs : option loc) :
  preserves f (ribbon_plot x y n_ribbons percentile_min percentile_max
                 ribbon_color plot_median line_color ax fill_kwargs line_kwargs).
Proof.
  unfold ribbon_plot.
  apply preserves_bind; [apply preserves_lift|]. intros qs1.
  apply preserves_bind; [apply preserves_percentile|]. intros perc1.
  apply preserves_bind; [apply preserves_lift|]. intros qs2.
  apply preserves_bind; [apply preserves_percentile|]. intros perc2.
  apply preserves_bind; [apply preserves_or_new_dict|]. intros fk.
  apply preserves_bind; [apply preserves_or_new_dict|]. intros lk.
  apply preserves_bind; [apply preserves_lift|]. intros dflt.
  apply preserves_bind; [apply preserves_dict_pop|]. intros alpha.
  apply preserves_bind; [apply preserves_ax_or_gca|]. intros axl.
  apply preserves_bind; [apply preserves_sca|]. intros _.
  apply preserves_bind; [apply preserves_fill_loop|]. intros _.
  apply preserves_bind; [|intros _; apply preserves_gca].
  destruct plot_median; [|apply preserves_ret].
  apply preserves_bind; [apply preserves_dict_pop|]. intros step.
  apply preserves_median_line.
Qed.

End Frame.

(** ** Hoare rules *)

Section Hoare.

Context {A : Type}.
Implicit Types (P : world -> Prop) (E : exn -> world -> Prop).

Lemma hoare_ret P (a : A) (Q : A -> world -> Prop) E :
  (forall w, P w -> Q a w) -> hoare P (ret a) Q E.
Proof. intros H w Hw. apply H, Hw. Qed.

Lemma hoare_raise P (e : exn) (Q : A -> world -> Prop) E :
  (forall w, P w -> E e w) -> hoare P (@raise A e) Q E.
Proof. intros H w Hw. apply H, Hw. Qed.

Lemma hoare_bind {B} P (m : M A) (k : A -> M B) (Q : A -> world -> Prop)
    (R : B -> world -> Prop) E :
  hoare P m Q E -> (forall a, hoare (Q a) (k a) R E) -> hoare P (bind m k) R E.
Proof.
  intros Hm Hk w Hw. unfold bind. specialize (Hm w Hw).
  destruct (m w) as [[a|e] w1].
  - apply Hk, Hm.
  - exact Hm.
Qed.

Lemma hoare_conseq P P' (m : M A) (Q Q' : A -> world -> Prop) E E' :
  hoare P m Q E ->
  (forall w, P' w -> P w) ->
  (forall a w, Q a w -> Q' a w) ->
  (forall e w, E e w -> E' e w) ->
  hoare P' m Q' E'.
Proof.
  intros Hm HP HQ HE w Hw. specialize (Hm w (HP w Hw)).
  destruct (m w) as [[a|e] w1]; [apply HQ | apply HE]; exact Hm.
Qed.

(** A computation that preserves [f] keeps every property of [f]. *)
Lemma hoare_frame {T} (f : world -> T) (I : T -> Prop) (m : M A) :
  preserves f m ->
  hoare (fun w => I (f w)) m (fun _ w => I (f w)) (fun _ w => I (f w)).
Proof.
  intros Hm w Hw. specialize (Hm w).
  destruct (m w) as [[a|e] w1]; simpl in Hm; rewrite Hm; exact Hw.
Qed.

End Hoare.

Lemma hoare_for_each {A} (I : world -> Prop) (E : exn -> world -> Prop)
    (l : list A) (body : A -> M unit) :
  (forall a, hoare I (body a) (fun _ => I) E) ->
  hoare I (for_each l body) (fun _ => I) E.
Proof.
  intros Hb. induction l as [|a l IH]; simpl.
  - apply hoare_ret. auto.
  - eapply hoare_bind; [apply Hb | intros []; exact IH].
Qed.

(** ** The caller's fill-style dictionary *)

Section FillKwargs.

Variables (l : loc) (m : gmap string pyval).

Lemma or_new_dict_caller :
  hoare (fun w => dicts w !! l = Some m) (or_new_dict (Some l))
        (holds l m) (fun _ w => dicts w !! l = Some m).
Proof.
  intros w Hw. unfold or_new_dict, bind, read_dict. rewrite Hw.
  unfold holds. destruct (dict_truthy m) eqn:Ht; simpl.
  - split; [exact Hw | congruence].
  - apply dict_truthy_false in Ht. split; [|auto].
    rewrite lookup_insert_ne; [exact Hw|].
    intros Heq. pose proof (fresh_dict_unbound w) as Hf. congruence.
Qed.

Lemma or_new_dict_other (c : gmap string pyval) (fk : loc) (d : option loc) :
  hoare (holds l c fk) (or_new_dict d) (fun _ => holds l c fk) (fun _ => holds l c fk).
Proof.
  assert (Hnew : hoare (holds l c fk) new_dict (fun _ => holds l c fk)
                       (fun _ => holds l c fk)).
  { intros w [Hw Hfk]. unfold holds. simpl. split; [|exact Hfk].
    rewrite lookup_insert_ne; [exact Hw|].
    intros Heq. pose proof (fresh_dict_unbound w) as Hf. congruence. }
  destruct d as [d|]; [|exact Hnew]. simpl.
  eapply hoare_bind.
  - apply (hoare_frame (fun w => w) (holds l c fk)). intros w. unfold read_dict.
    destruct (dicts w !! d); reflexivity.
  - intros md. destruct (dict_truthy md); [apply hoare_ret; auto | exact Hnew].
Qed.

Lemma dict_pop_caller (c : gmap string pyval) (fk : loc) (key : string)
    (dflt : pyval) :
  hoare (holds l c fk) (dict_pop fk key dflt)
        (fun _ => holds l (delete key c) fk) (fun _ => holds l c fk).
Proof.
  intros w [Hw Hfk]. unfold holds, dict_pop, bind, read_dict.
  destruct (decide (fk = l)) as [->|Hne].
  - rewrite Hw. destruct (c !! key) eqn:Hk; simpl.
    + split; [apply lookup_insert_eq | congruence].
    + rewrite delete_id by exact Hk. split; [exact Hw | congruence].
  - specialize (Hfk Hne). subst c. rewrite delete_empty.
    destruct (dicts w !! fk) as [mfk|]; simpl; [|split; auto].
    destruct (mfk !! key); simpl; [|split; auto].
    split; [|auto]. rewrite lookup_insert_ne by exact Hne. exact Hw.
Qed.

Lemma holds_kept (c : gmap string pyval) (fk : loc) (w : world) :
  agree_outside m c -> holds l c fk w -> kept l m w.
Proof. intros Hc [Hw _]. exists c. auto. Qed.

Lemma agree_refl : agree_outside m m.
Proof. intros k _ _. reflexivity. Qed.

Lemma agree_delete (c : gmap string pyval) (key : string) :
  key = "alpha" \/ key = "step" -> agree_outside m c ->
  agree_outside m (delete key c).
Proof.
  intros Hkey Hc k Ha Hs. rewrite lookup_delete_ne; [apply Hc; assumption|].
  destruct Hkey; congruence.
Qed.

Lemma step_frame {A} (c : gmap string pyval) (fk : loc) (m0 : M A) :
  agree_outside m c -> preserves dicts m0 ->
  hoare (holds l c fk) m0 (fun _ => holds l c fk) (fun _ => kept l m).
Proof.
  intros Hc Hm0.
  apply (hoare_conseq _ _ _ _ _ _ _
           (hoare_frame dicts (fun D => D !! l = Some c /\ (fk <> l -> c = ∅)) m0 Hm0));
    auto.
  intros _ w Hw. exact (holds_kept c fk w Hc Hw).
Qed.

Lemma step_or_new_caller :
  hoare (holds l m l) (or_new_dict (Some l)) (holds l m) (fun _ => kept l m).
Proof.
  apply (hoare_conseq _ _ _ _ _ _ _ or_new_dict_caller).
  - intros w [Hw _]. exact Hw.
  - auto.
  - intros _ w Hw. exists m. split; [exact Hw | apply agree_refl].
Qed.

Lemma step_or_new_other (c : gmap string pyval) (fk : loc) (d : option loc) :
  agree_outside m c ->
  hoare (holds l c fk) (or_new_dict d) (fun _ => holds l c fk) (fun _ => kept l m).
Proof.
  intros Hc. apply (hoare_conseq _ _ _ _ _ _ _ (or_new_dict_other c fk d)); auto.
  intros _ w Hw. exact (holds_kept c fk w Hc Hw).
Qed.

Lemma step_pop (c : gmap string pyval) (fk : loc) (key : string) (dflt : pyval) :
  agree_outside m c ->
  hoare (holds l c fk) (dict_pop fk key dflt)
        (fun _ => holds l (delete key c) fk) (fun _ => kept l m).
Proof.
  intros Hc. apply (hoare_conseq _ _ _ _ _ _ _ (dict_pop_caller c fk key dflt)); auto.
  intros _ w Hw. exact (holds_kept c fk w Hc Hw).
Qed.

(** The effect of [ribbon_plot] on the dictionary passed as
    [fill_kwargs]: both keys are gone when the call returns, and whether
    it returns or raises every other item is as it was. *)
Lemma ribbon_plot_caller_dict (x y : loc) (n : Z) (pmin pmax : Q) (rc : pyval)
    (pm : bool) (lc : pyval) (ax lkw : option loc) :
  hoare (fun w => dicts w !! l = Some m)
        (ribbon_plot x y n pmin pmax rc pm lc ax (Some l) lkw)
        (fun _ w => dicts w !! l = Some (popped pm m))
        (fun _ => kept l m).
Proof.
  pose proof agree_refl as H0.
  pose proof (agree_delete m "alpha" (or_introl eq_refl) H0) as H1.
  pose proof (agree_delete _ "step" (or_intror eq_refl) H1) as H2.
  apply (hoare_conseq (holds l m l) _ _
           (fun _ w => dicts w !! l = Some (popped pm m)) _ (fun _ => kept l m));
    [|intros w Hw; split; [exact Hw | congruence] | auto | auto].
  unfold ribbon_plot.
  eapply hoare_bind; [apply (step_frame m l), preserves_lift; exact H0 | intros qs1].
  eapply hoare_bind; [apply (step_frame m l), preserves_percentile; exact H0 | intros perc1].
  eapply hoare_bind; [apply (step_frame m l), preserves_lift; exact H0 | intros qs2].
  eapply hoare_bind; [apply (step_frame m l), preserves_percentile; exact H0 | intros perc2].
  eapply hoare_bind; [apply step_or_new_caller | intros fk].
  eapply hoare_bind; [apply step_or_new_other; exact H0 | intros lk].
  eapply hoare_bind; [apply (step_frame m fk), preserves_lift; exact H0 | intros dflt].
  eapply hoare_bind; [apply step_pop; exact H0 | intros alpha].
  eapply hoare_bind; [apply (step_frame (delete "alpha" m) fk), preserves_ax_or_gca; exact H1 | intros axl].
  eapply hoare_bind; [apply (step_frame (delete "alpha" m) fk), preserves_sca; [exact H1 | reflexivity] | intros []].
  eapply hoare_bind;
    [apply (step_frame (delete "alpha" m) fk), preserves_fill_loop; [exact H1 | reflexivity..] | intros []].
  destruct pm; simpl popped.
  - eapply hoare_bind.
    + eapply hoare_bind; [apply step_pop; exact H1 | intros step].
      apply (step_frame (delete "step" (delete "alpha" m)) fk), preserves_median_line; [exact H2 | reflexivity..].
    + intros []. eapply hoare_conseq;
        [apply (step_frame (delete "step" (delete "alpha" m)) fk), (preserves_gca dicts); exact H2 | auto | | auto].
      intros _ w [Hw _]. exact Hw.
  - eapply hoare_bind.
    + apply (step_frame (delete "alpha" m) fk), preserves_ret. exact H1.
    + intros []. eapply hoare_conseq;
        [apply (step_frame (delete "alpha" m) fk), (preserves_gca dicts); exact H1 | auto | | auto].
      intros _ w [Hw _]. exact Hw.
Qed.

End FillKwargs.

(** ** Selecting and drawing sample curves *)

Section Spaghetti.

Variables (x y : loc) (xv : list Q) (a : ndarray).

Lemma getitem_run (w : world) (idx : Z) :
  ensembles w !! y = Some a -> in_row_range a idx ->
  getitem y idx w = (Ok (row_at a idx), w).
Proof.
  intros Hy [Hlo Hhi]. unfold getitem, bind, read_ensemble, row_at.
  rewrite Hy. cbv zeta.
  destruct (Z.leb_spec 0 idx) as [H0|H0].
  - destruct (Z.ltb_spec idx (Z.of_nat (shape0 a))) as [_|?]; [reflexivity | lia].
  - simpl andb. cbv iota.
    destruct (Z.leb_spec (- Z.of_nat (shape0 a)) idx) as [_|?]; [|lia].
    destruct (Z.ltb_spec idx 0) as [_|?]; [reflexivity | lia].
Qed.

(** An index outside [-N, N) is an error: which one depends on whether
    it fits a C long. *)
Lemma getitem_fails (w : world) (idx : Z) :
  ensembles w !! y = Some a -> ~ in_row_range a idx ->
  getitem y idx w =
    (Raise (if (- long_bound <=? idx)%Z && (idx <? long_bound)%Z
            then IndexError else OverflowError), w).
Proof.
  intros Hy Hout. unfold getitem, bind, read_ensemble, in_row_range in *.
  rewrite Hy. cbv zeta.
  destruct (Z.leb_spec 0 idx); destruct (Z.ltb_spec idx (Z.of_nat (shape0 a)));
    cbn [andb]; try lia;
    destruct (Z.leb_spec (- Z.of_nat (shape0 a)) idx);
    destruct (Z.ltb_spec idx 0); cbn [andb]; try lia;
    destruct (_ && _); reflexivity.
Qed.

Lemma getitem_out_of_range (w : world) (idx : Z) :
  ensembles w !! y = Some a -> ~ in_row_range a idx ->
  (- long_bound <= idx < long_bound)%Z ->
  getitem y idx w = (Raise IndexError, w).
Proof.
  intros Hy Hout [Hlo Hhi]. rewrite getitem_fails by assumption.
  destruct (Z.leb_spec (- long_bound) idx); [|lia].
  destruct (Z.ltb_spec idx long_bound); [reflexivity | lia].
Qed.

Lemma length_row_at (idx : Z) :
  well_shaped a -> in_row_range a idx -> length (row_at a idx) = shape1 a.
Proof.
  intros Hwf [Hlo Hhi]. unfold row_at, well_shaped, shape0 in *.
  rewrite Forall_forall in Hwf. apply Hwf, list_elem_of_In, nth_In.
  destruct (0 <=? idx)%Z eqn:H0; [apply Z.leb_le in H0 | apply Z.leb_gt in H0]; lia.
Qed.

Lemma or_empty_items_run (w : world) (d : option loc) :
  bound w d -> or_empty_items d w = (Ok (items w d), w).
Proof.
  intros Hb. destruct d as [l|]; [|reflexivity]. simpl in *.
  destruct Hb as [m Hm]. unfold read_dict. rewrite Hm. reflexivity.
Qed.

(** One turn of the loop of line 41, on an index within range. *)
Lemma spaghetti_turn (ax : loc) (pk : option loc) (props : gmap string pyval)
    (idx : Z) (w : world) :
  well_shaped a -> length xv = shape1 a -> in_row_range a idx ->
  vectors w !! x = Some xv -> ensembles w !! y = Some a ->
  or_empty_items pk w = (Ok props, w) ->
  (row <- getitem y idx ;;
   props <- or_empty_items pk ;;
   Plt.axes_line ax Straight x row props) w =
    if line_accepts (mpl w) Straight props
    then (Ok tt, set_canvas (<[ax := artists w ax
                   ++ [Line2D Straight xv (row_at a idx) props]]> (canvas w)) w)
    else (Raise (LibraryError "plot"), w).
Proof.
  intros Hwf Hlen Hin Hx Hy Hpk.
  erewrite bind_Ok; [|apply getitem_run; assumption].
  erewrite bind_Ok; [|exact Hpk].
  destruct (line_accepts (mpl w) Straight props) eqn:Hacc.
  - apply axes_line_run; [exact Hx | | exact Hacc].
    rewrite length_row_at; assumption.
  - apply (axes_line_rejected _ _ _ _ xv); assumption.
Qed.

Lemma spaghetti_loop_run (ax : loc) (pk : option loc) (props : gmap string pyval)
    (idxs : list Z) :
  well_shaped a -> length xv = shape1 a -> Forall (in_row_range a) idxs ->
  forall w,
    vectors w !! x = Some xv -> ensembles w !! y = Some a ->
    line_accepts (mpl w) Straight props = true ->
    or_empty_items pk w = (Ok props, w) ->
    (forall c, or_empty_items pk (set_canvas c w) = (Ok props, set_canvas c w)) ->
    exists C,
      for_each idxs (fun idx =>
        row <- getitem y idx ;;
        props <- or_empty_items pk ;;
        Plt.axes_line ax Straight x row props) w = (Ok tt, set_canvas C w) /\
      default [] (C !! ax) =
        artists w ax ++ map (fun idx => Line2D Straight xv (row_at a idx) props) idxs.
Proof.
  intros Hwf Hlen Hidx. induction Hidx as [|idx idxs Hi Hidxs IH];
    intros w Hx Hy Hacc Hpk Hpk'.
  - exists (canvas w). simpl. unfold ret. rewrite set_canvas_same, app_nil_r.
    split; reflexivity.
  - simpl for_each.
    set (w1 := set_canvas (<[ax := artists w ax
                  ++ [Line2D Straight xv (row_at a idx) props]]> (canvas w)) w).
    destruct (IH w1 Hx Hy Hacc (Hpk' _)) as (C & Hrun & HC).
    { intros c. apply Hpk'. }
    exists C. split.
    + erewrite bind_Ok.
      * exact Hrun.
      * rewrite (spaghetti_turn ax pk props idx w) by assumption.
        rewrite Hacc. reflexivity.
    + rewrite HC. unfold w1. rewrite artists_insert, <- app_assoc. reflexivity.
Qed.

(** A loop that has run to its end has drawn every line: every index
    was within range. *)
Lemma spaghetti_loop_returned (ax : loc) (pk : option loc)
    (props : gmap string pyval) (idxs : list Z) :
  well_shaped a -> length xv = shape1 a ->
  forall w w',
    vectors w !! x = Some xv -> ensembles w !! y = Some a ->
    or_empty_items pk w = (Ok props, w) ->
    (forall c, or_empty_items pk (set_canvas c w) = (Ok props, set_canvas c w)) ->
    for_each idxs (fun idx =>
      row <- getitem y idx ;;
      props <- or_empty_items pk ;;
      Plt.axes_line ax Straight x row props) w = (Ok tt, w') ->
    Forall (in_row_range a) idxs /\
    exists C,
      w' = set_canvas C w /\
      default [] (C !! ax) =
        artists w ax ++ map (fun idx => Line2D Straight xv (row_at a idx) props) idxs.
Proof.
  intros Hwf Hlen. induction idxs as [|idx idxs IH];
    intros w w' Hx Hy Hpk Hpk' Hrun.
  - simpl in Hrun. injection Hrun as <-. split; [constructor|].
    exists (canvas w). rewrite set_canvas_same, app_nil_r. split; reflexivity.
  - simpl for_each in Hrun.
    destruct (decide (- Z.of_nat (shape0 a) <= idx < Z.of_nat (shape0 a))%Z)
      as [Hin|Hout]; cycle 1.
    { rewrite (bind_Raise _ _ _ _ _
                 (bind_Raise _ _ _ _ _ (getitem_fails w idx Hy Hout))) in Hrun.
      discriminate. }
    change (in_row_range a idx) in Hin.
    pose proof (spaghetti_turn ax pk props idx w Hwf Hlen Hin Hx Hy Hpk) as Hturn.
    destruct (line_accepts (mpl w) Straight props).
    + rewrite (bind_Ok _ _ _ _ _ Hturn) in Hrun.
      apply IH in Hrun; [|exact Hx | exact Hy | apply Hpk' | intros c; apply Hpk'].
      destruct Hrun as (Hall & C & -> & HC).
      split; [constructor; assumption|].
      exists C. split; [reflexivity|].
      rewrite HC, artists_insert, <- app_assoc. reflexivity.
    + rewrite (bind_Raise _ _ _ _ _ Hturn) in Hrun. discriminate.
Qed.

(** A call with explicit indices and a falsy count that returns has
    drawn the rows in the order given. *)
Lemma spaghetti_plot_returned (w : world) (n_samples : option Z) (idxs : list Z)
    (ax pk : option loc) (v : loc) (w' : world) :
  has_samples_of n_samples = false ->
  spaghetti_data w x y xv a pk ->
  spaghetti_plot x y n_samples (Some idxs) ax pk w = (Ok v, w') ->
  v = target_axes w ax /\
  Forall (in_row_range a) idxs /\
  artists w' v = artists w v ++ map (sample_line w xv a pk) idxs.
Proof.
  intros Hns (Hx & Hy & Hwf & Hlen & Hb) Hret.
  unfold spaghetti_plot in Hret. rewrite Hns in Hret. simpl in Hret.
  erewrite bind_Ok in Hret; [|reflexivity].
  rewrite (bind_Ok _ _ _ _ _ (ax_or_gca_run _ ax)) in Hret.
  unfold bind at 1 in Hret.
  match type of Hret with
  | context [for_each idxs ?body w] =>
      destruct (for_each idxs body w) as [[[]|e] w1] eqn:Hloop
  end; [|discriminate].
  injection Hret as <- <-.
  apply (spaghetti_loop_returned _ pk (items w pk)) in Hloop;
    [|assumption..|apply or_empty_items_run; exact Hb
     |intros c; apply (or_empty_items_run (set_canvas c w) pk Hb)].
  destruct Hloop as (Hall & C & -> & HC).
  split; [reflexivity|]. split; [exact Hall|]. exact HC.
Qed.

End Spaghetti.

(** The module's own exception can only come from its first lines. *)
Section SelectionError.

Ltac settle :=
  unfold anything, other_error, selection_error; simpl;
  first [exact I | discriminate].

Lemma ret_other {A} (a : A) : hoare (fun _ => True) (ret a) anything other_error.
Proof. intros w _. settle. Qed.

Lemma raise_other {A} (e : exn) :
  e <> selection_error -> hoare (fun _ => True) (@raise A e) anything other_error.
Proof. intros He w _. exact He. Qed.

Lemma read_ensemble_other y :
  hoare (fun _ => True) (read_ensemble y) anything other_error.
Proof. intros w _. unfold read_ensemble. destruct (ensembles w !! y); settle. Qed.

Lemma read_vector_other x :
  hoare (fun _ => True) (read_vector x) anything other_error.
Proof. intros w _. unfold read_vector. destruct (vectors w !! x); settle. Qed.

Lemma or_empty_items_other pk :
  hoare (fun _ => True) (or_empty_items pk) anything other_error.
Proof.
  intros w _. destruct pk as [l|]; simpl; [|settle].
  unfold read_dict. destruct (dicts w !! l); settle.
Qed.

Lemma random_choice_other a size :
  hoare (fun _ => True) (Np.random_choice a size) anything other_error.
Proof.
  intros w _. unfold Np.random_choice.
  destruct (size <? 0)%Z; [settle|].
  destruct ((length a =? 0)%nat && (0 <? size)%Z); settle.
Qed.

Lemma getitem_other y idx :
  hoare (fun _ => True) (getitem y idx) anything other_error.
Proof.
  eapply hoare_bind; [apply read_ensemble_other|]. intros a. cbv zeta.
  destruct (_ && _); [apply ret_other|].
  destruct (_ && _); [apply ret_other|].
  destruct (_ && _); apply raise_other; discriminate.
Qed.

Lemma axes_line_other ax st x yd props :
  hoare (fun _ => True) (Plt.axes_line ax st x yd props) anything other_error.
Proof.
  eapply hoare_bind; [apply read_vector_other|]. intros xv.
  eapply hoare_bind with (Q := anything); [intros w _; settle|]. intros accepted.
  destruct (_ && _); [|apply raise_other; discriminate].
  intros w _. settle.
Qed.

Lemma spaghetti_lines_other x y ax pk idxs :
  hoare (fun _ => True)
    (for_each idxs (fun idx =>
       row <- getitem y idx ;;
       props <- or_empty_items pk ;;
       Plt.axes_line ax Straight x row props)) anything other_error.
Proof.
  apply (hoare_for_each (fun _ => True) other_error). intros idx.
  eapply hoare_bind; [apply getitem_other|]. intros row.
  eapply hoare_bind; [apply or_empty_items_other|]. intros props.
  apply axes_line_other.
Qed.

(** [spaghetti_plot] raises its own exception, at once, exactly when
    [indices is not None] and [bool(n_samples)] coincide. *)
Lemma spaghetti_plot_selection (x y : loc) (n_samples : option Z)
    (indices : option (list Z)) (ax pk : option loc) (w : world) :
  let r := spaghetti_plot x y n_samples indices ax pk w in
  if Bool.eqb (bool_decide (indices <> None)) (has_samples_of n_samples)
  then r = (Raise selection_error, w)
  else r.1 <> Raise selection_error.
Proof.
  unfold spaghetti_plot.
  destruct (Bool.eqb _ _); [reflexivity|]. cbv zeta.
  match goal with |- (?m w).1 <> _ =>
    set (body := m); assert (H : hoare (fun _ => True) body anything other_error);
    [unfold body|]
  end.
  { eapply hoare_bind with (Q := anything).
    - destruct (has_samples_of n_samples); [|apply ret_other].
      eapply hoare_bind; [apply read_ensemble_other|]. intros a.
      eapply hoare_bind; [apply random_choice_other|]. intros idxs.
      apply ret_other.
    - intros idxs. eapply hoare_bind with (Q := anything).
      + destruct ax; [apply ret_other | intros w0 _; settle].
      + intros axl. destruct idxs as [idxs|]; [|apply raise_other; discriminate].
        eapply hoare_bind; [apply spaghetti_lines_other|].
        intros []. apply ret_other. }
  specialize (H w I). destruct (body w) as [[r|e] w']; simpl; [discriminate|].
  intros [= ->]. apply H. reflexivity.
Qed.

End SelectionError.

(** ** Random selection *)

(** Every index [np.random.choice] returns is an element of the
    population it was given. *)
Lemma random_choice_support (a : list Z) (size : Z) (w w' : world)
    (idxs : list Z) :
  Np.random_choice a size w = (Ok idxs, w') ->
  length idxs = Z.to_nat size /\ Forall (fun i => In i a) idxs.
Proof.
  unfold Np.random_choice. destruct (size <? 0)%Z; [discriminate|].
  destruct (_ && _) eqn:He; [discriminate|]. intros [= <- _].
  split; [rewrite length_map, length_seq; reflexivity|].
  apply Forall_forall. intros i Hi.
  apply list_elem_of_In, in_map_iff in Hi as (k & <- & Hk).
  apply in_seq in Hk. apply nth_In.
  destruct a as [|z a]; [|apply Nat.mod_upper_bound; discriminate].
  simpl in He. destruct (Z.ltb_spec 0 size); [discriminate | lia].
Qed.

(** * The claims *)

(** C1.  With a sample count and no indices, [spaghetti_plot] draws its
    indices from [range(y.shape[1])], the positions along the x-axis, and
    not from the row range.  Here [y] has shape (2, 3) and the generator
    picks position 2 of [range(3)]: the index 2 is selected, no row 2
    exists, and the call ends in [IndexError] with nothing drawn. *)
Theorem spaghetti_plot_samples_columns :
  let w := store_with two_samples (fun _ => 2%nat) in
  shape0 two_samples = 2%nat /\
  shape1 two_samples = 3%nat /\
  Np.random_choice (Np.range (shape1 two_samples)) 1 w
    = (Ok [2%Z], set_drawn 1 w) /\
  spaghetti_plot x_ref y_ref (Some 1%Z) None None None w
    = (Raise IndexError, set_drawn 1 w).
Proof. repeat split; reflexivity. Qed.

(** C3, as stated, fails: a call that passes neither a count nor indices
    takes the default count 20 and draws 20 lines; and the exception of a
    call that passes both does not carry the message of the claim. *)
Lemma spaghetti_plot_default_count :
  let w := store_with ten_ones (fun i => i) in
  let neither := call_spaghetti_plot x_ref y_ref Omitted None None None w in
  let both :=
    call_spaghetti_plot x_ref y_ref (Passed (Some 5%Z)) (Some [0%Z]) None None w in
  (neither.1 = Ok the_axes /\ length (artists neither.2 the_axes) = 20%nat) /\
  both.1 <> Raise (ValueError
                     "exactly one of sample-count or indices must be specified").
Proof.
  cbv zeta. split; [split|].
  - vm_compute. reflexivity.
  - vm_compute. reflexivity.
  - vm_compute. discriminate.
Qed.

(** C3, amended.  With [n_samples] the count passed, or 20 when the
    caller leaves it out: if [indices is not None] and [bool(n_samples)]
    coincide, the call raises [ValueError] with the message of line 34 and
    the store, so the canvas, is as before; otherwise that exception is
    not raised. *)
Theorem spaghetti_plot_selection_error (w : world) (x y : loc)
    (n_samples : arg (option Z)) (indices : option (list Z))
    (ax plot_kwargs : option loc) :
  let count := arg_or (Some 20%Z) n_samples in
  let r := call_spaghetti_plot x y n_samples indices ax plot_kwargs w in
  let error :=
    ValueError "Exactly one of `n_samples` or `indices` must be specified" in
  if Bool.eqb (bool_decide (indices <> None)) (has_samples_of count)
  then r = (Raise error, w)
  else r.1 <> Raise error.
Proof. apply spaghetti_plot_selection. Qed.

(** C7, as stated, fails: with an index set and the count left unset the
    default count 20 applies, both selections are then specified, and the
    call raises instead of drawing [len(indices)] lines. *)
Lemma spaghetti_plot_indices_default_count :
  let w := store_with ten_ones (fun i => i) in
  let r := call_spaghetti_plot x_ref y_ref Omitted (Some [0; 3; 7]%Z) None None w in
  r = (Raise selection_error, w) /\
  length (artists r.2 the_axes) <> length [0; 3; 7]%Z.
Proof. cbv zeta. split; [reflexivity | vm_compute; discriminate]. Qed.

(** C7, amended.  For a call with an explicit index set and a count
    passed as 0 or [None], on an [x] of the length of the rows of [y]:
    the indices are used as given, and a call that returns has found
    every index within [-N, N) and has added one line [y[indices[i]]]
    against [x] per index, duplicates included, in order, so
    [len(indices)] lines in all.  With the count left out the call raises
    the exception of line 35. *)
Theorem spaghetti_plot_indices (w : world) (x y : loc) (xv : list Q)
    (a : ndarray) (n_samples : option Z) (idxs : list Z)
    (ax plot_kwargs : option loc) (v : loc) (w' : world) :
  has_samples_of n_samples = false ->
  spaghetti_data w x y xv a plot_kwargs ->
  call_spaghetti_plot x y (Passed n_samples) (Some idxs) ax plot_kwargs w
    = (Ok v, w') ->
  let axl := target_axes w ax in
  v = axl /\
  Forall (in_row_range a) idxs /\
  artists w' axl =
    artists w axl
    ++ map (fun idx => Line2D Straight xv (row_at a idx) (items w plot_kwargs))
           idxs /\
  length (artists w' axl) = (length (artists w axl) + length idxs)%nat /\
  call_spaghetti_plot x y Omitted (Some idxs) ax plot_kwargs w
    = (Raise selection_error, w).
Proof.
  intros Hns Hdata Hret axl.
  destruct (spaghetti_plot_returned x y xv a w n_samples idxs ax plot_kwargs
              v w' Hns Hdata Hret) as (-> & Hall & Hart).
  split; [reflexivity|]. split; [exact Hall|]. split; [exact Hart|].
  split; [|reflexivity].
  unfold axl. rewrite Hart, length_app, length_map. reflexivity.
Qed.

(** A computation whose result is known returns it, in the store it
    ends in. *)
Lemma returned_eq {A} (m : M A) (w : world) (v : A) :
  (m w).1 = Ok v -> m w = (Ok v, (m w).2).
Proof. destruct (m w) as [o w1]. simpl. intros ->. reflexivity. Qed.

Lemma ten_ones_data (tape : nat -> nat) :
  spaghetti_data (store_with ten_ones tape) x_ref y_ref positions ten_ones None.
Proof.
  unfold spaghetti_data.
  split; [reflexivity|]. split; [reflexivity|].
  split; [repeat constructor|]. split; [reflexivity | exact I].
Qed.

Lemma spaghetti_plot_indices_witness :
  let w := store_with ten_ones (fun i => i) in
  let r := call_spaghetti_plot x_ref y_ref (Passed (Some 0%Z))
             (Some [0; 3; 7; 3]%Z) None None w in
  has_samples_of (Some 0%Z) = false /\
  spaghetti_data w x_ref y_ref positions ten_ones None /\
  r = (Ok the_axes, r.2) /\
  artists r.2 the_axes = replicate 4 (Line2D Straight positions [1; 1; 1] ∅) /\
  length (artists r.2 the_axes) = 4%nat.
Proof.
  cbv zeta.
  set (w := store_with ten_ones (fun i => i)).
  set (r := call_spaghetti_plot x_ref y_ref (Passed (Some 0%Z))
              (Some [0; 3; 7; 3]%Z) None None w).
  assert (Hr : r = (Ok the_axes, r.2))
    by (apply returned_eq; vm_compute; reflexivity).
  split; [reflexivity|]. split; [apply ten_ones_data|]. split; [exact Hr|].
  destruct (spaghetti_plot_indices w x_ref y_ref positions ten_ones (Some 0%Z)
              [0; 3; 7; 3]%Z None None the_axes r.2 eq_refl (ten_ones_data _) Hr)
    as (_ & _ & Hart & Hlen & _).
  split; [exact Hart | exact Hlen].
Defined.



(** The example store holds acceptable data for [ribbon_plot], with or
    without the style dictionaries. *)
Lemma example_data (tape : nat -> nat) (styled : bool) :
  ribbon_data (store_with three_samples tape) x_ref y_ref positions
    three_samples
    (if styled then Some fill_ref else None)
    (if styled then Some line_ref else None).
Proof.
  unfold ribbon_data.
  split; [reflexivity|]. split; [reflexivity|]. split; [reflexivity|].
  split; [unfold shape0; simpl; lia|].
  destruct styled; simpl.
  - split; eexists; reflexivity.
  - split; exact I.
Qed.

Lemma example_percentages : percentages 1 99.
Proof. repeat split; lra. Qed.






(** C8.  Neither function changes an array: whatever the arguments and
    whether the call returns or raises, the store afterwards holds the
    same one- and two-dimensional arrays, the x-coordinates and the
    ensemble among them. *)
Theorem arrays_not_mutated (w : world) (x y : loc) :
  (forall n_samples indices ax plot_kwargs,
     let w' := (spaghetti_plot x y n_samples indices ax plot_kwargs w).2 in
     vectors w' = vectors w /\ ensembles w' = ensembles w) /\
  (forall n_ribbons percentile_min percentile_max ribbon_color plot_median
          line_color ax fill_kwargs line_kwargs,
     let w' := (ribbon_plot x y n_ribbons percentile_min percentile_max
                  ribbon_color plot_median line_color ax fill_kwargs
                  line_kwargs w).2 in
     vectors w' = vectors w /\ ensembles w' = ensembles w).
Proof.
  split.
  - intros n_samples indices ax plot_kwargs w'.
    pose proof (preserves_spaghetti_plot (fun s => (vectors s, ensembles s))
                  (fun _ _ => eq_refl) (fun _ _ => eq_refl)
                  x y n_samples indices ax plot_kwargs w) as H.
    injection H as Hv He. split; assumption.
  - intros n_ribbons percentile_min percentile_max ribbon_color plot_median
           line_color ax fill_kwargs line_kwargs w'.
    pose proof (preserves_ribbon_plot (fun s => (vectors s, ensembles s))
                  (fun _ _ => eq_refl) (fun _ _ => eq_refl) (fun _ _ => eq_refl)
                  x y n_ribbons percentile_min percentile_max ribbon_color
                  plot_median line_color ax fill_kwargs line_kwargs w) as H.
    injection H as Hv He. split; assumption.
Qed.

(** C9.  With [n_ribbons = 0], on an ensemble with at least one sample,
    the call raises [ZeroDivisionError]: the default [1 / n_ribbons] of
    the [pop] is computed before the dictionary is looked at, so also when
    the fill-style options hold an [alpha].  Nothing has been drawn by
    then and every dictionary of the caller is as it was. *)
Theorem ribbon_plot_zero_ribbons (w : world) (x y : loc) (a : ndarray)
    (percentile_min percentile_max : Q) (ribbon_color : pyval)
    (plot_median : bool) (line_color : pyval)
    (ax fill_kwargs line_kwargs : option loc) :
  ensembles w !! y = Some a ->
  (0 < shape0 a)%nat ->
  bound w fill_kwargs -> bound w line_kwargs ->
  let r := ribbon_plot x y 0 percentile_min percentile_max ribbon_color
             plot_median line_color ax fill_kwargs line_kwargs w in
  r.1 = Raise ZeroDivisionError /\
  canvas r.2 = canvas w /\
  forall l m, dicts w !! l = Some m -> dicts r.2 !! l = Some m.
Proof.
  intros Hy Hrows Hbf Hbl r.
  destruct (ribbon_plot_zero w x y a percentile_min percentile_max ribbon_color
              plot_median line_color ax fill_kwargs line_kwargs Hy Hrows Hbf Hbl)
    as (D & Hrun & Hsub).
  unfold r. rewrite Hrun. simpl. split; [reflexivity|]. split; [reflexivity|].
  intros l m Hm. exact (lookup_weaken _ _ _ _ Hm Hsub).
Qed.

Lemma ribbon_plot_zero_ribbons_witness :
  let w := store_with three_samples (fun i => i) in
  let r := ribbon_plot x_ref y_ref 0 1 99 (PStr "r") true (PStr "k") None
             (Some fill_ref) None w in
  ensembles w !! y_ref = Some three_samples /\
  (0 < shape0 three_samples)%nat /\
  bound w (Some fill_ref) /\ bound w None /\
  fill_style !! "alpha" = Some (PFloat (1 # 2)) /\
  r.1 = Raise ZeroDivisionError /\
  canvas r.2 = canvas w /\
  dicts r.2 !! fill_ref = Some fill_style.
Proof.
  cbv zeta.
  assert (Hb : bound (store_with three_samples (fun i => i)) (Some fill_ref))
    by (eexists; reflexivity).
  assert (Hrows : (0 < shape0 three_samples)%nat) by (unfold shape0; simpl; lia).
  split; [reflexivity|]. split; [exact Hrows|]. split; [exact Hb|].
  split; [exact I|]. split; [reflexivity|].
  destruct (ribbon_plot_zero_ribbons (store_with three_samples (fun i => i))
              x_ref y_ref three_samples 1 99 (PStr "r") true (PStr "k") None
              (Some fill_ref) None eq_refl Hrows Hb I) as (Hr & Hc & Hd).
  split; [exact Hr|]. split; [exact Hc|]. apply Hd. reflexivity.
Defined.

(** C10.  The dictionary the caller passes as fill-style options is
    changed in place.  When the call returns, its [alpha] is gone, its
    [step] is gone if [plot_median] is true and untouched otherwise; and
    whether the call returns or raises, every other key has the value it
    had. *)
Theorem ribbon_plot_fill_kwargs_mutated (w : world) (x y : loc)
    (n_ribbons : Z) (percentile_min percentile_max : Q) (ribbon_color : pyval)
    (plot_median : bool) (line_color : pyval) (ax line_kwargs : option loc)
    (l : loc) (m : gmap string pyval) :
  dicts w !! l = Some m ->
  let r := ribbon_plot x y n_ribbons percentile_min percentile_max ribbon_color
             plot_median line_color ax (Some l) line_kwargs w in
  exists m',
    dicts r.2 !! l = Some m' /\
    (forall k : string, k <> "alpha" -> k <> "step" -> m' !! k = m !! k) /\
    (forall axl, r.1 = Ok axl ->
       m' !! "alpha" = None /\
       m' !! "step" = (if plot_median then None else m !! "step")).
Proof.
  intros Hm r.
  pose proof (ribbon_plot_caller_dict l m x y n_ribbons percentile_min
                percentile_max ribbon_color plot_median line_color ax
                line_kwargs w Hm) as H.
  fold r in H. destruct r as [[axl|e] w']; simpl.
  - exists (popped plot_median m). split; [exact H|]. split.
    + intros k Ha Hs. unfold popped. destruct plot_median;
        rewrite ?lookup_delete_ne by congruence; reflexivity.
    + intros _ _. unfold popped. destruct plot_median.
      * split; [|apply lookup_delete_eq].
        rewrite lookup_delete_ne by discriminate. apply lookup_delete_eq.
      * split; [apply lookup_delete_eq|].
        apply lookup_delete_ne. discriminate.
  - destruct H as (c & Hc & Hagree). exists c. split; [exact Hc|].
    split; [exact Hagree|]. intros axl [=].
Qed.

Lemma ribbon_plot_fill_kwargs_mutated_witness :
  let w := store_with three_samples (fun i => i) in
  let r := ribbon_plot x_ref y_ref 2 1 99 (PStr "r") true (PStr "k") None
             (Some fill_ref) (Some line_ref) w in
  dicts w !! fill_ref = Some fill_style /\
  r.1 = Ok the_axes /\
  dicts r.2 !! fill_ref = Some {[ "hatch" := PStr "/" ]}.
Proof.
  cbv zeta. split; [reflexivity|]. split; [vm_compute; reflexivity|].
  destruct (ribbon_plot_fill_kwargs_mutated (store_with three_samples (fun i => i))
              x_ref y_ref 2 1 99 (PStr "r") true (PStr "k") None (Some line_ref)
              fill_ref fill_style eq_refl) as (m' & Hm' & Hother & Hpopped).
  rewrite Hm'. f_equal. apply map_eq. intros k.
  destruct (Hpopped the_axes ltac:(vm_compute; reflexivity)) as [Ha Hs].
  destruct (decide (k = "alpha")) as [->|Hka]; [rewrite Ha; reflexivity|].
  destruct (decide (k = "step")) as [->|Hks]; [rewrite Hs; reflexivity|].
  rewrite (Hother k Hka Hks). unfold fill_style.
  rewrite !lookup_insert_ne by congruence. reflexivity.
Defined.

(** * Further properties *)

(** ** Where the artists go *)

Lemma hoare_pure {A} (phi : Prop) (P : world -> Prop) (m : M A)
    (Q : A -> world -> Prop) (E : exn -> world -> Prop) :
  (phi -> hoare P m Q E) -> hoare (fun w => phi /\ P w) m Q E.
Proof. intros H w [Hphi Hw]. exact (H Hphi w Hw). Qed.

Section Axes.

Variables (only : artifact -> bool) (w0 : world) (axl : loc).

Lemma drew_on_refl : drew_on only w0 axl w0.
Proof. split; [|reflexivity]. exists []. rewrite app_nil_r. auto. Qed.

(** A step that neither draws nor selects an axes. *)
Lemma drew_on_frame {A} (cur : loc) (m : M A) :
  preserves (fun w => (canvas w, current_axes w)) m ->
  hoare (fun w => drew_on only w0 axl w /\ current_axes w = cur) m
        (fun _ w => drew_on only w0 axl w /\ current_axes w = cur)
        (fun _ w => drew_on only w0 axl w /\ current_axes w = cur).
Proof.
  intros Hm w Hw. specialize (Hm w).
  destruct (m w) as [[r|e] w1]; simpl in Hm; injection Hm as Hc Ha;
    unfold drew_on, artists in *; rewrite Hc, Ha; exact Hw.
Qed.

Lemma drew_on_add (cur : loc) (r : artifact) :
  only r = true ->
  hoare (fun w => drew_on only w0 axl w /\ current_axes w = cur)
        (Plt.add_artist axl r)
        (fun _ w => drew_on only w0 axl w /\ current_axes w = cur)
        (fun _ w => drew_on only w0 axl w /\ current_axes w = cur).
Proof.
  intros Hr w [[(added & Hadd & Honly) Hother] Hcur]. simpl.
  split; [|exact Hcur]. split.
  - exists (added ++ [r]). rewrite artists_insert, Hadd, app_assoc.
    split; [reflexivity|]. apply Forall_app. split; [exact Honly|].
    repeat constructor. exact Hr.
  - intros ax' Hne. rewrite <- (Hother ax' Hne). unfold artists. simpl.
    rewrite lookup_insert_ne by congruence. reflexivity.
Qed.

Lemma drew_on_line (cur : loc) (st : drawstyle) (x : loc) (yd : list Q)
    (props : gmap string pyval) :
  (forall xd, only (Line2D st xd yd props) = true) ->
  hoare (fun w => drew_on only w0 axl w /\ current_axes w = cur)
        (Plt.axes_line axl st x yd props)
        (fun _ w => drew_on only w0 axl w /\ current_axes w = cur)
        (fun _ w => drew_on only w0 axl w /\ current_axes w = cur).
Proof.
  intros Hr. eapply hoare_bind.
  - apply drew_on_frame, preserves_read_vector.
  - intros xd. eapply hoare_bind.
    + apply drew_on_frame, preserves_line_accepted.
    + intros accepted. destruct (_ && _).
      * apply drew_on_add, Hr.
      * apply hoare_raise. auto.
Qed.

End Axes.

Lemma ax_or_gca_target (P : world -> Prop) (w0 : world) (ax : option loc) :
  hoare (fun w => P w /\ current_axes w = current_axes w0) (ax_or_gca ax)
        (fun r w => r = target_axes w0 ax /\ P w /\ current_axes w = current_axes w0)
        (fun _ w => P w /\ current_axes w = current_axes w0).
Proof.
  intros w [Hw Hc]. destruct ax as [a|]; simpl; auto.
Qed.

Lemma spaghetti_plot_axes_hoare (w0 : world) (x y : loc)
    (n_samples : option Z) (indices : option (list Z))
    (ax plot_kwargs : option loc) :
  let axl := target_axes w0 ax in
  let inv w := drew_on is_plain_line w0 axl w /\ current_axes w = current_axes w0 in
  hoare inv (spaghetti_plot x y n_samples indices ax plot_kwargs)
        (fun r w => r = axl /\ inv w) (fun _ => inv).
Proof.
  intros axl inv. unfold spaghetti_plot.
  destruct (Bool.eqb _ _); [apply hoare_raise; auto|].
  eapply hoare_bind.
  { apply (drew_on_frame is_plain_line w0 axl).
    destruct (has_samples_of n_samples); [|apply preserves_ret].
    apply preserves_bind; [apply preserves_read_ensemble|]. intros a.
    apply preserves_bind; [|intros ?; apply preserves_ret].
    apply preserves_random_choice. intros; reflexivity. }
  intros idxs. eapply hoare_bind.
  { apply (ax_or_gca_target (drew_on is_plain_line w0 axl) w0 ax). }
  intros r. apply hoare_pure. intros ->.
  destruct idxs as [idxs|]; [|apply hoare_raise; auto].
  eapply hoare_bind.
  { apply (hoare_for_each inv). intros idx.
    eapply hoare_bind.
    { apply (drew_on_frame is_plain_line w0 axl), preserves_getitem. }
    intros row. eapply hoare_bind.
    { apply (drew_on_frame is_plain_line w0 axl), preserves_or_empty_items. }
    intros props. apply drew_on_line. reflexivity. }
  intros []. apply hoare_ret. intros w Hw. split; [reflexivity | exact Hw].
Qed.

(** X1.  Whenever [spaghetti_plot] returns, it returns the axes it was
    passed, or the current axes when none was passed.  Whether it returns
    or raises, it has only added straight lines to that axes, after the
    artists that were there; the artists of every other axes and pyplot's
    current axes are as they were. *)
Theorem spaghetti_plot_axes (w : world) (x y : loc) (n_samples : option Z)
    (indices : option (list Z)) (ax plot_kwargs : option loc) :
  let r := spaghetti_plot x y n_samples indices ax plot_kwargs w in
  let axl := target_axes w ax in
  (forall v, r.1 = Ok v -> v = axl) /\
  (exists added,
     artists r.2 axl = artists w axl ++ added /\
     Forall (fun l => exists xd yd props, l = Line2D Straight xd yd props) added) /\
  (forall ax', ax' <> axl -> artists r.2 ax' = artists w ax') /\
  current_axes r.2 = current_axes w.
Proof.
  intros r axl.
  pose proof (spaghetti_plot_axes_hoare w x y n_samples indices ax plot_kwargs
                w (conj (drew_on_refl is_plain_line w axl) eq_refl)) as H.
  fold r in H.
  assert (Hinv : drew_on is_plain_line w axl r.2 /\ current_axes r.2 = current_axes w).
  { destruct r as [[v|e] w']; [exact (proj2 H) | exact H]. }
  split; [|split; [|split]].
  - intros v Hv. destruct r as [[v'|e] w']; [|discriminate].
    injection Hv as <-. exact (proj1 H).
  - destruct Hinv as [[(added & Hadd & Hlines) _] _]. exists added.
    split; [exact Hadd|]. eapply Forall_impl; [exact Hlines|].
    intros [[|] xd yd props|]; simpl; try discriminate. intros _.
    exists xd, yd, props. reflexivity.
  - exact (proj2 (proj1 Hinv)).
  - exact (proj2 Hinv).
Qed.

Section RibbonAxes.

Variables (w0 : world) (axl : loc).

Local Abbreviation D := (drew_on any_artist w0 axl).

Lemma on_axes {A} (cur : loc) (m : M A) (Q : A -> world -> Prop) :
  hoare (fun w => D w /\ current_axes w = cur) m Q
        (fun _ w => D w /\ current_axes w = cur) ->
  hoare (fun w => D w /\ current_axes w = cur) m Q (fun _ => D).
Proof.
  intros H. apply (hoare_conseq _ _ _ _ _ _ _ H); auto. intros _ w [Hw _]. exact Hw.
Qed.

Lemma on_axes_frame {A} (cur : loc) (m : M A) :
  preserves (fun w => (canvas w, current_axes w)) m ->
  hoare (fun w => D w /\ current_axes w = cur) m
        (fun _ w => D w /\ current_axes w = cur) (fun _ => D).
Proof. intros Hm. apply on_axes, drew_on_frame, Hm. Qed.

Lemma on_axes_line (st : bool) (x : loc) (yd : list Q)
    (props : gmap string pyval) :
  hoare (fun w => D w /\ current_axes w = axl)
        (if st then Plt.step x yd props else Plt.plot x yd props)
        (fun _ w => D w /\ current_axes w = axl) (fun _ => D).
Proof.
  assert (H : forall s, hoare (fun w => D w /\ current_axes w = axl)
            (ax <- Plt.gca ;; Plt.axes_line ax s x yd props)
            (fun _ w => D w /\ current_axes w = axl) (fun _ => D)).
  { intros s. eapply hoare_bind with
      (Q := fun r w => r = axl /\ D w /\ current_axes w = axl).
    - intros w [Hw Hc]. simpl. auto.
    - intros r. apply hoare_pure. intros ->.
      apply on_axes, drew_on_line. reflexivity. }
  destruct st; apply H.
Qed.

Lemma on_axes_fill (x : loc) (y1 y2 : list Q) (props : gmap string pyval) :
  hoare (fun w => D w /\ current_axes w = axl)
        (Plt.fill_between x y1 y2 props)
        (fun _ w => D w /\ current_axes w = axl) (fun _ => D).
Proof.
  eapply hoare_bind; [apply on_axes_frame, preserves_read_vector|].
  intros xd.
  eapply hoare_bind; [apply on_axes_frame, preserves_fill_accepted|].
  intros accepted.
  destruct (Plt.broadcast_length _ _);
    [|apply hoare_raise; intros w [Hw _]; exact Hw].
  destruct (Plt.broadcast_length _ _);
    [|apply hoare_raise; intros w [Hw _]; exact Hw].
  destruct accepted; [|apply hoare_raise; intros w [Hw _]; exact Hw].
  eapply hoare_bind with
    (Q := fun r w => r = axl /\ D w /\ current_axes w = axl).
  - intros w [Hw Hc]. simpl. auto.
  - intros r. apply hoare_pure. intros ->.
    apply on_axes, drew_on_add. reflexivity.
Qed.

End RibbonAxes.

Lemma ribbon_plot_axes_hoare (w0 : world) (x y : loc) (n_ribbons : Z)
    (percentile_min percentile_max : Q) (ribbon_color : pyval)
    (plot_median : bool) (line_color : pyval)
    (ax fill_kwargs line_kwargs : option loc) :
  let axl := target_axes w0 ax in
  let D := drew_on any_artist w0 axl in
  hoare (fun w => D w /\ current_axes w = current_axes w0)
        (ribbon_plot x y n_ribbons percentile_min percentile_max ribbon_color
           plot_median line_color ax fill_kwargs line_kwargs)
        (fun r w => r = axl /\ D w /\ current_axes w = axl) (fun _ => D).
Proof.
  intros axl D. unfold ribbon_plot.
  assert (Hf : forall (d : gmap loc (gmap string pyval)) (w : world),
             (canvas (set_dicts d w), current_axes (set_dicts d w))
             = (canvas w, current_axes w)) by reflexivity.
  eapply hoare_bind; [apply on_axes_frame, preserves_lift | intros qs1].
  eapply hoare_bind; [apply on_axes_frame, preserves_percentile | intros perc1].
  eapply hoare_bind; [apply on_axes_frame, preserves_lift | intros qs2].
  eapply hoare_bind; [apply on_axes_frame, preserves_percentile | intros perc2].
  eapply hoare_bind; [apply on_axes_frame, preserves_or_new_dict, Hf | intros fk].
  eapply hoare_bind; [apply on_axes_frame, preserves_or_new_dict, Hf | intros lk].
  eapply hoare_bind; [apply on_axes_frame, preserves_lift | intros dflt].
  eapply hoare_bind; [apply on_axes_frame, preserves_dict_pop, Hf | intros alpha].
  eapply hoare_bind.
  { apply on_axes, (ax_or_gca_target D w0 ax). }
  intros r. apply hoare_pure. intros ->. fold axl.
  eapply hoare_bind with (Q := fun _ w => D w /\ current_axes w = axl).
  { intros w [Hw _]. simpl. split; [exact Hw | reflexivity]. }
  intros [].
  eapply hoare_bind with (Q := fun _ w => D w /\ current_axes w = axl).
  { apply (hoare_for_each (fun w => D w /\ current_axes w = axl)). intros p.
    eapply hoare_bind; [apply on_axes_frame, preserves_read_dict | intros extra].
    eapply hoare_bind; [apply on_axes_frame, preserves_lift | intros props].
    apply on_axes_fill. }
  intros [].
  eapply hoare_bind with (Q := fun _ w => D w /\ current_axes w = axl).
  { destruct plot_median; [|apply hoare_ret; auto].
    eapply hoare_bind; [apply on_axes_frame, preserves_dict_pop, Hf | intros step].
    eapply hoare_bind; [apply on_axes_frame, preserves_median | intros med].
    eapply hoare_bind; [apply on_axes_frame, preserves_read_dict | intros extra].
    eapply hoare_bind; [apply on_axes_frame, preserves_lift | intros props].
    apply on_axes_line. }
  intros []. intros w [Hw Hc]. simpl. auto.
Qed.

(** X2.  Whenever [ribbon_plot] returns, it returns the axes it was
    passed, or the axes that was current when none was passed, and that
    axes is then pyplot's current axes.  Whether it returns or raises, the
    artists that were on that axes are still there, before the ones
    added, and the artists of every other axes are as they were. *)
Theorem ribbon_plot_axes (w : world) (x y : loc) (n_ribbons : Z)
    (percentile_min percentile_max : Q) (ribbon_color : pyval)
    (plot_median : bool) (line_color : pyval)
    (ax fill_kwargs line_kwargs : option loc) :
  let r := ribbon_plot x y n_ribbons percentile_min percentile_max ribbon_color
             plot_median line_color ax fill_kwargs line_kwargs w in
  let axl := target_axes w ax in
  (forall v, r.1 = Ok v -> v = axl /\ current_axes r.2 = axl) /\
  (exists added, artists r.2 axl = artists w axl ++ added) /\
  (forall ax', ax' <> axl -> artists r.2 ax' = artists w ax').
Proof.
  intros r axl.
  pose proof (ribbon_plot_axes_hoare w x y n_ribbons percentile_min
                percentile_max ribbon_color plot_median line_color ax
                fill_kwargs line_kwargs w
                (conj (drew_on_refl any_artist w axl) eq_refl)) as H.
  fold r in H.
  assert (HD : drew_on any_artist w axl r.2).
  { destruct r as [[v|e] w']; [exact (proj1 (proj2 H)) | exact H]. }
  split; [|split].
  - intros v Hv. destruct r as [[v'|e] w']; [|discriminate].
    injection Hv as <-. destruct H as (Hr & _ & Hc). auto.
  - destruct HD as [(added & Hadd & _) _]. exists added. exact Hadd.
  - exact (proj2 HD).
Qed.

(** ** Which dictionaries change *)

(** X3.  [spaghetti_plot] changes no dictionary, [plot_kwargs] included,
    whether it returns or raises. *)
Theorem spaghetti_plot_keeps_dicts (w : world) (x y : loc)
    (n_samples : option Z) (indices : option (list Z))
    (ax plot_kwargs : option loc) :
  dicts (spaghetti_plot x y n_samples indices ax plot_kwargs w).2 = dicts w.
Proof.
  apply (preserves_spaghetti_plot dicts); reflexivity.
Qed.

Section OtherDicts.

Variables (l : loc) (m : gmap string pyval).

Lemma untouched_frame {A} (fk : loc) (m0 : M A) :
  preserves dicts m0 ->
  hoare (untouched l m fk) m0 (fun _ => untouched l m fk)
        (fun _ w => dicts w !! l = Some m).
Proof.
  intros Hm0.
  apply (hoare_conseq _ _ _ _ _ _ _
           (hoare_frame dicts (fun D => D !! l = Some m /\ fk <> l) m0 Hm0));
    auto.
  intros _ w [Hw _]. exact Hw.
Qed.

Lemma bound_frame {A} (m0 : M A) :
  preserves dicts m0 ->
  hoare (fun w => dicts w !! l = Some m) m0
        (fun _ w => dicts w !! l = Some m) (fun _ w => dicts w !! l = Some m).
Proof. apply (hoare_frame dicts (fun D => D !! l = Some m)). Qed.

Lemma untouched_new_dict (P : loc -> Prop) :
  hoare (fun w => dicts w !! l = Some m /\ forall fk, fk <> l -> P fk) new_dict
        (fun fk w => dicts w !! l = Some m /\ P fk)
        (fun _ w => dicts w !! l = Some m).
Proof.
  intros w [Hw HP]. simpl.
  assert (Hne : fresh (dom (dicts w)) <> l).
  { intros Heq. pose proof (fresh_dict_unbound w) as Hf. congruence. }
  split; [|apply HP, Hne]. rewrite lookup_insert_ne by exact Hne. exact Hw.
Qed.

Lemma untouched_or_new_dict (P : loc -> Prop) (d : option loc) :
  (forall fk, fk <> l -> P fk) -> (forall fk, d = Some fk -> P fk) ->
  hoare (fun w => dicts w !! l = Some m) (or_new_dict d)
        (fun fk w => dicts w !! l = Some m /\ P fk)
        (fun _ w => dicts w !! l = Some m).
Proof.
  intros Hfresh Hd.
  assert (Hnew : hoare (fun w => dicts w !! l = Some m) new_dict
            (fun fk w => dicts w !! l = Some m /\ P fk)
            (fun _ w => dicts w !! l = Some m)).
  { intros w Hw. apply (untouched_new_dict P w). auto. }
  destruct d as [d|]; [|exact Hnew]. simpl.
  eapply hoare_bind.
  - apply bound_frame, preserves_read_dict.
  - intros md. destruct (dict_truthy md); [|exact Hnew].
    apply hoare_ret. intros w Hw. split; [exact Hw | apply Hd; reflexivity].
Qed.

Lemma untouched_pop (fk : loc) (key : string) (dflt : pyval) :
  hoare (untouched l m fk) (dict_pop fk key dflt) (fun _ => untouched l m fk)
        (fun _ w => dicts w !! l = Some m).
Proof.
  intros w [Hw Hne]. unfold untouched, dict_pop, bind, read_dict.
  destruct (dicts w !! fk) as [mfk|]; simpl; [|exact Hw].
  destruct (mfk !! key); simpl; [|split; assumption].
  split; [|exact Hne]. rewrite lookup_insert_ne by exact Hne. exact Hw.
Qed.

Lemma ribbon_plot_other_dict (x y : loc) (n : Z) (pmin pmax : Q) (rc : pyval)
    (pm : bool) (lc : pyval) (ax fkw lkw : option loc) :
  fkw <> Some l ->
  hoare (fun w => dicts w !! l = Some m)
        (ribbon_plot x y n pmin pmax rc pm lc ax fkw lkw)
        (fun _ w => dicts w !! l = Some m)
        (fun _ w => dicts w !! l = Some m).
Proof.
  intros Hfk. unfold ribbon_plot.
  eapply hoare_bind; [apply bound_frame, preserves_lift | intros qs1].
  eapply hoare_bind; [apply bound_frame, preserves_percentile | intros perc1].
  eapply hoare_bind; [apply bound_frame, preserves_lift | intros qs2].
  eapply hoare_bind; [apply bound_frame, preserves_percentile | intros perc2].
  eapply hoare_bind.
  { apply (untouched_or_new_dict (fun fk => fk <> l)); [auto | congruence]. }
  intros fk. change (fun w => dicts w !! l = Some m /\ fk <> l)
    with (untouched l m fk).
  eapply hoare_bind with (Q := fun _ => untouched l m fk).
  { intros w [Hw Hne].
    pose proof (untouched_or_new_dict (fun _ => True) lkw
                  (fun _ _ => I) (fun _ _ => I) w Hw) as H.
    destruct (or_new_dict lkw w) as [[lk|e] w1]; [|exact H].
    split; [exact (proj1 H) | exact Hne]. }
  intros lk.
  eapply hoare_bind; [apply untouched_frame, preserves_lift | intros dflt].
  eapply hoare_bind; [apply untouched_pop | intros alpha].
  eapply hoare_bind; [apply untouched_frame, preserves_ax_or_gca | intros axl].
  eapply hoare_bind; [apply untouched_frame, preserves_sca; reflexivity | intros []].
  eapply hoare_bind;
    [apply untouched_frame, preserves_fill_loop; reflexivity | intros []].
  eapply hoare_bind with (Q := fun _ => untouched l m fk).
  { destruct pm; [|apply untouched_frame, preserves_ret].
    eapply hoare_bind; [apply untouched_pop | intros step].
    apply untouched_frame, preserves_median_line; reflexivity. }
  intros []. intros w [Hw _]. exact Hw.
Qed.

End OtherDicts.

(** ** Repeated keywords *)



(** ** Keywords of the artists *)

(** X7.  In a call that returns, the median line has been drawn with
    [color=line_color] and the items of the line-style dictionary.  When
    one and the same dictionary is passed as fill-style and as line-style
    options, the line has got its items without [alpha] and [step], which
    have been popped by then. *)
Theorem ribbon_plot_line_keywords (w : world) (x y : loc) (xv : list Q)
    (a : ndarray) (n_ribbons : Z) (percentile_min percentile_max : Q)
    (ribbon_color line_color : pyval)
    (ax fill_kwargs line_kwargs : option loc) (v : loc) (w' : world) :
  ribbon_data w x y xv a fill_kwargs line_kwargs ->
  percentages percentile_min percentile_max ->
  ribbon_plot x y n_ribbons percentile_min percentile_max ribbon_color
              true line_color ax fill_kwargs line_kwargs w = (Ok v, w') ->
  let axl := target_axes w ax in
  let kept_items :=
    if decide (line_kwargs = fill_kwargs)
    then delete "step" (delete "alpha" (items w line_kwargs))
    else items w line_kwargs in
  v = axl /\
  exists fills med,
    Np.median y w = (Ok med, w) /\
    Forall (fun b => is_fill b = true) fills /\
    artists w' axl =
      artists w axl ++ fills
      ++ [Line2D (median_style w fill_kwargs) xv med
            (list_to_map [("color", line_color)] ∪ kept_items)].
Proof.
  intros Hdata Hpc Hret axl kept_items.
  destruct (ribbon_plot_returned w x y xv a n_ribbons percentile_min
              percentile_max ribbon_color true line_color ax fill_kwargs
              line_kwargs v w' Hdata Hpc Hret)
    as (_ & _ & Hv & ls & us & _ & _ & _ & _ & Hart).
  split; [exact Hv|]. subst v.
  destruct Hdata as (_ & Hy & _ & Hrows & _).
  exists (bands w xv fill_kwargs n_ribbons ribbon_color (curves a ls) (curves a us)),
    (median_curve a).
  split; [apply median_run; assumption|]. split.
  - apply Forall_forall. intros b Hb.
    apply list_elem_of_fmap in Hb as (p & -> & _). reflexivity.
  - exact Hart.
Qed.

(** X8.  In a call that returns, every band has been drawn with
    [color=ribbon_color], and every item of the fill-style dictionary
    other than [alpha], [step] included, has reached every [fill_between]
    call unchanged. *)
Theorem ribbon_plot_fill_keywords (w : world) (x y : loc) (xv : list Q)
    (a : ndarray) (n_ribbons : Z) (percentile_min percentile_max : Q)
    (ribbon_color : pyval) (plot_median : bool) (line_color : pyval)
    (ax fill_kwargs line_kwargs : option loc) (v : loc) (w' : world) :
  ribbon_data w x y xv a fill_kwargs line_kwargs ->
  percentages percentile_min percentile_max ->
  ribbon_plot x y n_ribbons percentile_min percentile_max ribbon_color
              plot_median line_color ax fill_kwargs line_kwargs w
    = (Ok v, w') ->
  let axl := target_axes w ax in
  v = axl /\
  exists fills rest,
    artists w' axl = artists w axl ++ fills ++ rest /\
    length fills = Z.to_nat n_ribbons /\
    Forall (fun b => is_fill b = false) rest /\
    Forall (fun b =>
              is_fill b = true /\
              props_of b !! "color" = Some ribbon_color /\
              forall k : string, k <> "alpha" -> k <> "color" ->
                props_of b !! k = items w fill_kwargs !! k) fills.
Proof.
  intros Hdata Hpc Hret axl.
  destruct (ribbon_plot_returned w x y xv a n_ribbons percentile_min
              percentile_max ribbon_color plot_median line_color ax fill_kwargs
              line_kwargs v w' Hdata Hpc Hret)
    as (_ & _ & Hv & ls & us & _ & _ & Hll & Hlu & Hart).
  split; [exact Hv|]. subst v.
  eexists _, _. split; [exact Hart|]. split; [|split].
  - unfold bands. rewrite length_map, length_zip. unfold curves.
    rewrite !length_map. lia.
  - destruct plot_median; repeat constructor.
  - apply Forall_forall. intros b Hb.
    apply list_elem_of_fmap in Hb as (p & -> & _). simpl.
    split; [reflexivity|]. unfold fill_props. split.
    + apply lookup_union_Some_l. reflexivity.
    + intros k Ha Hc. rewrite lookup_union_r.
      * apply lookup_delete_ne. congruence.
      * simpl. rewrite !lookup_insert_ne by congruence. apply lookup_empty.
Qed.

(** ** One call after another *)

(** After a call that returns, the arrays and dictionaries are still
    there. *)
Lemma ribbon_data_after (w w1 : world) (x y : loc) (xv : list Q) (a : ndarray)
    (n : Z) (pmin pmax : Q) (rc : pyval) (pm : bool) (lc : pyval)
    (ax lkw : option loc) (l v1 : loc) (m : gmap string pyval) :
  ribbon_data w x y xv a (Some l) lkw ->
  dicts w !! l = Some m ->
  ribbon_plot x y n pmin pmax rc pm lc ax (Some l) lkw w = (Ok v1, w1) ->
  ribbon_data w1 x y xv a (Some l) lkw /\
  dicts w1 !! l = Some (popped pm m).
Proof.
  intros (Hx & Hy & Hlen & Hrows & Hbf & Hbl) Hm Hrun.
  pose proof (preserves_ribbon_plot (fun s => (vectors s, ensembles s))
                (fun _ _ => eq_refl) (fun _ _ => eq_refl) (fun _ _ => eq_refl)
                x y n pmin pmax rc pm lc ax (Some l) lkw w) as Hfr.
  rewrite Hrun in Hfr. simpl in Hfr. injection Hfr as Hv He.
  pose proof (ribbon_plot_caller_dict l m x y n pmin pmax rc pm lc ax lkw w Hm)
    as Hd.
  rewrite Hrun in Hd.
  split; [|exact Hd].
  unfold ribbon_data. rewrite Hv, He.
  split; [exact Hx|]. split; [exact Hy|]. split; [exact Hlen|].
  split; [exact Hrows|].
  split; [simpl; rewrite Hd; eauto|].
  destruct lkw as [l2|]; [|exact I].
  destruct (decide (l2 = l)) as [->|Hne].
  - simpl. rewrite Hd. eauto.
  - destruct Hbl as [m2 Hm2].
    pose proof (ribbon_plot_other_dict l2 m2 x y n pmin pmax rc pm lc ax
                  (Some l) (Some l2) ltac:(congruence) w Hm2) as Ho.
    rewrite Hrun in Ho. simpl. rewrite Ho. eauto.
Qed.

(** X10.  An [alpha] passed in the fill-style dictionary is used once.
    The first call draws its bands with it and removes it from the
    dictionary; when a second call with the same arguments, the same
    dictionary included, returns too, it has drawn its [n_ribbons] bands,
    on the same axes, with the default [1 / n_ribbons]. *)
Theorem ribbon_plot_alpha_used_once (w : world) (x y : loc) (xv : list Q)
    (a : ndarray) (n_ribbons : Z) (percentile_min percentile_max : Q)
    (ribbon_color : pyval) (plot_median : bool) (line_color : pyval)
    (ax line_kwargs : option loc) (l : loc) (m : gmap string pyval)
    (u : pyval) (v1 v2 : loc) (w1 w2 : world) :
  ribbon_data w x y xv a (Some l) line_kwargs ->
  percentages percentile_min percentile_max ->
  dicts w !! l = Some m ->
  m !! "alpha" = Some u ->
  let call := ribbon_plot x y n_ribbons percentile_min percentile_max
                ribbon_color plot_median line_color ax (Some l) line_kwargs in
  let axl := target_axes w ax in
  call w = (Ok v1, w1) ->
  call w1 = (Ok v2, w2) ->
  v1 = axl /\ v2 = axl /\
  exists fills1 rest1 fills2 rest2,
    artists w1 axl = artists w axl ++ fills1 ++ rest1 /\
    length fills1 = Z.to_nat n_ribbons /\
    Forall (fun b => is_fill b = true /\ fill_alpha b = Some u) fills1 /\
    Forall (fun b => is_fill b = false) rest1 /\
    artists w2 axl = artists w1 axl ++ fills2 ++ rest2 /\
    length fills2 = Z.to_nat n_ribbons /\
    Forall (fun b => is_fill b = true /\
                     fill_alpha b = Some (PFloat (Qred (1 / inject_Z n_ribbons))))
           fills2 /\
    Forall (fun b => is_fill b = false) rest2.
Proof.
  intros Hdata Hpc Hm Hu call axl Hret1 Hret2.
  assert (Hfills : forall w0 ls us,
            length ls = Z.to_nat n_ribbons -> length us = Z.to_nat n_ribbons ->
            let fills := bands w0 xv (Some l) n_ribbons ribbon_color
                           (curves a ls) (curves a us) in
            length fills = Z.to_nat n_ribbons /\
            Forall (fun b => is_fill b = true /\
                             fill_alpha b = Some (ribbon_alpha w0 (Some l) n_ribbons))
              fills).
  { intros w0 ls us Hll Hlu fills. split.
    - unfold fills, bands. rewrite length_map, length_zip. unfold curves.
      rewrite !length_map. lia.
    - apply Forall_forall. intros b Hb.
      apply list_elem_of_fmap in Hb as (p & -> & _). simpl. split; [reflexivity|].
      unfold fill_props. apply lookup_union_Some_l. reflexivity. }
  assert (Hrest : forall w0,
            Forall (fun b => is_fill b = false)
              (if plot_median
               then [median_line w0 xv (median_curve a) (Some l) line_kwargs
                       line_color]
               else [])).
  { intros w0. destruct plot_median; repeat constructor. }
  destruct (ribbon_plot_returned w x y xv a n_ribbons percentile_min
              percentile_max ribbon_color plot_median line_color ax (Some l)
              line_kwargs v1 w1 Hdata Hpc Hret1)
    as (_ & _ & Hv1 & ls & us & Hls & Hus & Hll & Hlu & Hart1).
  destruct (ribbon_data_after w w1 x y xv a n_ribbons percentile_min
              percentile_max ribbon_color plot_median line_color ax line_kwargs
              l v1 m Hdata Hm Hret1) as [Hdata1 Hd1].
  destruct (ribbon_plot_returned w1 x y xv a n_ribbons percentile_min
              percentile_max ribbon_color plot_median line_color ax (Some l)
              line_kwargs v2 w2 Hdata1 Hpc Hret2)
    as (_ & _ & Hv2 & ls' & us' & Hls' & Hus' & _ & _ & Hart2).
  rewrite Hls in Hls'. rewrite Hus in Hus'.
  injection Hls' as <-. injection Hus' as <-.
  assert (Hax : target_axes w1 ax = axl).
  { pose proof (ribbon_plot_axes_hoare w x y n_ribbons percentile_min
                  percentile_max ribbon_color plot_median line_color ax (Some l)
                  line_kwargs w (conj (drew_on_refl any_artist w axl) eq_refl))
      as H.
    cbv zeta in H. unfold hoare in H. fold call in H. rewrite Hret1 in H.
    destruct H as (_ & _ & Hc). destruct ax; [reflexivity | exact Hc]. }
  rewrite Hax in Hv2. subst v1 v2.
  assert (Ha1 : ribbon_alpha w (Some l) n_ribbons = u).
  { unfold ribbon_alpha. simpl. rewrite Hm. simpl. rewrite Hu. reflexivity. }
  assert (Ha2 : ribbon_alpha w1 (Some l) n_ribbons
                = PFloat (Qred (1 / inject_Z n_ribbons))).
  { unfold ribbon_alpha. simpl. rewrite Hd1. simpl.
    replace (popped plot_median m !! "alpha") with (@None pyval); [reflexivity|].
    symmetry. unfold popped. destruct plot_median.
    - rewrite lookup_delete_ne by discriminate. apply lookup_delete_eq.
    - apply lookup_delete_eq. }
  destruct (Hfills w ls us Hll Hlu) as [Hl1 Hf1]. rewrite Ha1 in Hf1.
  destruct (Hfills w1 ls us Hll Hlu) as [Hl2 Hf2]. rewrite Ha2 in Hf2.
  split; [reflexivity|]. split; [reflexivity|].
  eexists _, _, _, _.
  split; [exact Hart1|]. split; [exact Hl1|]. split; [exact Hf1|].
  split; [apply Hrest|]. split; [exact Hart2|]. split; [exact Hl2|].
  split; [exact Hf2 | apply Hrest].
Qed.

(** ** More on [spaghetti_plot] *)

Lemma for_each_app {A} (l1 l2 : list A) (body : A -> M unit) (w : world) :
  for_each (l1 ++ l2) body w = (for_each l1 body ;; for_each l2 body) w.
Proof.
  revert w. induction l1 as [|a l1 IH]; intros w; simpl.
  - reflexivity.
  - unfold bind in *. destruct (body a w) as [[[]|e] w1]; [|reflexivity].
    apply IH.
Qed.

(** X11.  Indices are not validated before drawing starts: with
    keywords that matplotlib accepts for a line, when the first index
    outside [-N, N) is reached (an index that fits a C long) the call
    raises [IndexError], and the lines of the indices before it are
    already on the axes. *)
Theorem spaghetti_plot_out_of_range (w : world) (x y : loc) (xv : list Q)
    (a : ndarray) (n_samples : option Z) (before after : list Z) (bad : Z)
    (ax plot_kwargs : option loc) :
  has_samples_of n_samples = false ->
  spaghetti_data w x y xv a plot_kwargs ->
  line_accepts (mpl w) Straight (items w plot_kwargs) = true ->
  Forall (in_row_range a) before ->
  ~ in_row_range a bad ->
  (- long_bound <= bad < long_bound)%Z ->
  let r := spaghetti_plot x y n_samples (Some (before ++ bad :: after)) ax
             plot_kwargs w in
  let axl := target_axes w ax in
  r.1 = Raise IndexError /\
  artists r.2 axl
    = artists w axl ++ map (sample_line w xv a plot_kwargs) before.
Proof.
  intros Hns (Hx & Hy & Hwf & Hlen & Hb) Hacc Hidx Hbad Hfits r axl.
  destruct (spaghetti_loop_run x y xv a axl plot_kwargs (items w plot_kwargs)
              before Hwf Hlen Hidx w Hx Hy Hacc (or_empty_items_run w plot_kwargs Hb))
    as (C & Hrun & HC).
  { intros c. apply (or_empty_items_run (set_canvas c w) plot_kwargs Hb). }
  assert (Hres : r = (Raise IndexError, set_canvas C w)).
  { unfold r, spaghetti_plot. rewrite Hns. simpl.
    erewrite bind_Ok; [|reflexivity].
    rewrite (bind_Ok _ _ _ _ _ (ax_or_gca_run _ ax)).
    apply bind_Raise. rewrite for_each_app.
    erewrite bind_Ok; [|exact Hrun].
    simpl for_each. apply bind_Raise, bind_Raise.
    apply (getitem_out_of_range y a); assumption. }
  rewrite Hres. split; [reflexivity | exact HC].
Qed.

(** X12.  With a positive count and no indices, a call that returns has
    added exactly [n_samples] lines; each is the row of [y] at an index
    below the number of positions [y.shape[1]], which was also the index
    of a row. *)
Theorem spaghetti_plot_samples (w : world) (x y : loc) (xv : list Q)
    (a : ndarray) (n_samples : Z) (ax plot_kwargs : option loc)
    (v : loc) (w' : world) :
  (0 < n_samples)%Z ->
  spaghetti_data w x y xv a plot_kwargs ->
  spaghetti_plot x y (Some n_samples) None ax plot_kwargs w = (Ok v, w') ->
  let axl := target_axes w ax in
  v = axl /\
  exists idxs,
    length idxs = Z.to_nat n_samples /\
    Forall (fun i => (0 <= i < Z.of_nat (shape1 a))%Z /\ in_row_range a i) idxs /\
    artists w' axl
      = artists w axl ++ map (sample_line w xv a plot_kwargs) idxs.
Proof.
  intros Hn (Hx & Hy & Hwf & Hlen & Hb) Hret axl.
  unfold spaghetti_plot in Hret. simpl in Hret.
  destruct (Z.eqb_spec n_samples 0) as [?|_]; [lia|]. simpl in Hret.
  destruct (Np.random_choice (Np.range (shape1 a)) n_samples w)
    as [[idxs|e] w1] eqn:Hch; cycle 1.
  { erewrite bind_Raise in Hret; [discriminate|].
    unfold bind at 1, read_ensemble. rewrite Hy.
    apply bind_Raise. exact Hch. }
  erewrite bind_Ok in Hret; cycle 1.
  { unfold bind at 1, read_ensemble. rewrite Hy.
    erewrite bind_Ok; [|exact Hch]. reflexivity. }
  destruct (random_choice_support _ _ _ _ _ Hch) as [Hlidx Hin].
  assert (Hw1 : w1 = set_drawn (drawn w + Z.to_nat n_samples) w).
  { unfold Np.random_choice in Hch.
    destruct (n_samples <? 0)%Z; [discriminate|].
    destruct (_ && _); [discriminate|]. congruence. }
  subst w1.
  set (w1 := set_drawn (drawn w + Z.to_nat n_samples) w) in *.
  rewrite (bind_Ok _ _ _ _ _ (ax_or_gca_run _ ax)) in Hret.
  change (target_axes w1 ax) with axl in Hret.
  unfold bind at 1 in Hret.
  match type of Hret with
  | context [for_each idxs ?body w1] =>
      destruct (for_each idxs body w1) as [[[]|e] w2] eqn:Hloop
  end; [|discriminate].
  injection Hret as <- <-.
  apply (spaghetti_loop_returned x y xv a _ plot_kwargs (items w plot_kwargs))
    in Hloop;
    [|assumption..|apply (or_empty_items_run w1 plot_kwargs Hb)
     |intros c; apply (or_empty_items_run (set_canvas c w1) plot_kwargs Hb)].
  destruct Hloop as (Hall & C & -> & HC).
  split; [reflexivity|]. exists idxs. split; [exact Hlidx|]. split; [|exact HC].
  apply Forall_and. split; [|exact Hall].
  eapply Forall_impl; [exact Hin|]. intros i Hi. simpl in Hi.
  apply list_elem_of_In, elem_of_seqZ in Hi. lia.
Qed.

(** ** A negative ribbon count *)

(** X14.  With a negative [n_ribbons] the call raises inside the first
    [np.linspace], whatever the other arguments: the store is as it was,
    so nothing has been drawn and no dictionary has been touched. *)
Theorem ribbon_plot_negative_count (w : world) (x y : loc) (n_ribbons : Z)
    (percentile_min percentile_max : Q) (ribbon_color : pyval)
    (plot_median : bool) (line_color : pyval)
    (ax fill_kwargs line_kwargs : option loc) :
  (n_ribbons < 0)%Z ->
  ribbon_plot x y n_ribbons percentile_min percentile_max ribbon_color
              plot_median line_color ax fill_kwargs line_kwargs w
    = (Raise (LibraryError "np.linspace"), w).
Proof.
  intros Hn. unfold ribbon_plot.
  apply bind_Raise. unfold lift, lower_levels, Np.linspace.
  destruct (Z.ltb_spec n_ribbons 0) as [_|Hge]; [reflexivity | lia].
Qed.

Lemma ribbon_plot_negative_count_witness :
  let w := store_with three_samples (fun i => i) in
  (-1 < 0)%Z /\
  ribbon_plot x_ref y_ref (-1) 1 99 (PStr "r") true (PStr "k") None
              (Some fill_ref) None w
    = (Raise (LibraryError "np.linspace"), w).
Proof.
  cbv zeta. split; [lia|].
  apply (ribbon_plot_negative_count (store_with three_samples (fun i => i))
           x_ref y_ref (-1) 1 99 (PStr "r") true (PStr "k") None
           (Some fill_ref) None).
  lia.
Defined.

(** ** The random generator *)

(** X13.  [ribbon_plot] never draws from the global generator, and
    neither does [spaghetti_plot] when the count is 0 or [None], so with
    explicit indices: the state of the generator is as it was, whether
    the call returns or raises. *)
Theorem generator_untouched (w : world) (x y : loc) :
  (forall n_ribbons percentile_min percentile_max ribbon_color plot_median
          line_color ax fill_kwargs line_kwargs,
     drawn (ribbon_plot x y n_ribbons percentile_min percentile_max
              ribbon_color plot_median line_color ax fill_kwargs
              line_kwargs w).2 = drawn w) /\
  (forall indices ax plot_kwargs,
     drawn (spaghetti_plot x y None indices ax plot_kwargs w).2 = drawn w /\
     drawn (spaghetti_plot x y (Some 0%Z) indices ax plot_kwargs w).2 = drawn w).
Proof.
  assert (Hsp : forall n_samples indices ax plot_kwargs,
            has_samples_of n_samples = false ->
            drawn (spaghetti_plot x y n_samples indices ax plot_kwargs w).2
            = drawn w).
  { intros n_samples indices ax plot_kwargs Hns.
    unfold spaghetti_plot. rewrite Hns. cbv zeta.
    destruct (Bool.eqb _ _); [reflexivity|].
    revert w. apply preserves_bind; [apply preserves_ret|]. intros idxs.
    apply preserves_bind; [apply preserves_ax_or_gca|]. intros axl.
    destruct idxs as [idxs|]; [|apply preserves_raise].
    apply preserves_bind; [|intros ?; apply preserves_ret].
    apply preserves_for_each. intros idx.
    apply preserves_bind; [apply preserves_getitem|]. intros row.
    apply preserves_bind; [apply preserves_or_empty_items|]. intros props.
    apply preserves_axes_line. reflexivity. }
  split.
  - intros. apply (preserves_ribbon_plot drawn); reflexivity.
  - intros indices ax plot_kwargs. split; apply Hsp; reflexivity.
Qed.

(** ** Other dictionaries, and instances of the properties above *)

(** X4.  [ribbon_plot] changes no dictionary other than the one passed
    as fill-style options: the line-style dictionary, unless it is that
    same object, and every other dictionary hold the items they held,
    whether the call returns or raises. *)
Theorem ribbon_plot_other_dicts (w : world) (x y : loc) (n_ribbons : Z)
    (percentile_min percentile_max : Q) (ribbon_color : pyval)
    (plot_median : bool) (line_color : pyval)
    (ax fill_kwargs line_kwargs : option loc)
    (l : loc) (m : gmap string pyval) :
  dicts w !! l = Some m ->
  fill_kwargs <> Some l ->
  dicts (ribbon_plot x y n_ribbons percentile_min percentile_max ribbon_color
           plot_median line_color ax fill_kwargs line_kwargs w).2 !! l
  = Some m.
Proof.
  intros Hm Hne.
  pose proof (ribbon_plot_other_dict l m x y n_ribbons percentile_min
                percentile_max ribbon_color plot_median line_color ax
                fill_kwargs line_kwargs Hne w Hm) as H.
  destruct (ribbon_plot _ _ _ _ _ _ _ _ _ _ _ w) as [[v|e] w']; exact H.
Qed.

Lemma ribbon_plot_other_dicts_witness :
  let w := store_with three_samples (fun i => i) in
  dicts w !! line_ref = Some line_style /\
  Some fill_ref <> Some line_ref /\
  dicts (ribbon_plot x_ref y_ref 2 1 99 (PStr "r") true (PStr "k") None
           (Some fill_ref) (Some line_ref) w).2 !! line_ref
  = Some line_style.
Proof.
  cbv zeta. split; [reflexivity|]. split; [discriminate|].
  apply (ribbon_plot_other_dicts (store_with three_samples (fun i => i))
           x_ref y_ref 2 1 99 (PStr "r") true (PStr "k") None
           (Some fill_ref) (Some line_ref) line_ref line_style);
    [reflexivity | discriminate].
Defined.




(** The same dictionary as fill-style and as line-style options. *)
Lemma shared_style_data (tape : nat -> nat) :
  ribbon_data (styled_store shared_style line_style three_samples tape)
    x_ref y_ref positions three_samples (Some fill_ref) (Some fill_ref).
Proof.
  unfold ribbon_data.
  split; [reflexivity|]. split; [reflexivity|]. split; [reflexivity|].
  split; [unfold shape0; simpl; lia|].
  split; eexists; reflexivity.
Qed.

Lemma ribbon_plot_line_keywords_witness :
  let w := styled_store shared_style line_style three_samples (fun i => i) in
  let r := ribbon_plot x_ref y_ref 2 1 99 (PStr "r") true (PStr "k") None
             (Some fill_ref) (Some fill_ref) w in
  ribbon_data w x_ref y_ref positions three_samples
    (Some fill_ref) (Some fill_ref) /\
  percentages 1 99 /\
  r = (Ok the_axes, r.2) /\
  exists fills,
    Forall (fun b => is_fill b = true) fills /\
    artists r.2 the_axes =
      fills ++ [Line2D Steps positions [10; 10; 10]
                  (list_to_map [("color", PStr "k")]
                   ∪ delete "step" (delete "alpha" shared_style))].
Proof.
  cbv zeta.
  set (w := styled_store shared_style line_style three_samples (fun i => i)).
  set (r := ribbon_plot x_ref y_ref 2 1 99 (PStr "r") true (PStr "k") None
              (Some fill_ref) (Some fill_ref) w).
  assert (Hr : r = (Ok the_axes, r.2))
    by (apply returned_eq; vm_compute; reflexivity).
  split; [apply shared_style_data|].
  split; [exact example_percentages|]. split; [exact Hr|].
  destruct (ribbon_plot_line_keywords w x_ref y_ref positions three_samples 2 1 99
              (PStr "r") (PStr "k") None (Some fill_ref) (Some fill_ref)
              the_axes r.2 (shared_style_data _) example_percentages Hr)
    as (_ & fills & med & Hmed & Hfills & Hart).
  injection Hmed as <-.
  exists fills. split; [exact Hfills | exact Hart].
Defined.

Lemma ribbon_plot_fill_keywords_witness :
  let w := store_with three_samples (fun i => i) in
  let r := ribbon_plot x_ref y_ref 2 1 99 (PStr "r") true (PStr "k") None
             (Some fill_ref) (Some line_ref) w in
  ribbon_data w x_ref y_ref positions three_samples
    (Some fill_ref) (Some line_ref) /\
  percentages 1 99 /\
  r = (Ok the_axes, r.2) /\
  exists fills rest,
    artists r.2 the_axes = fills ++ rest /\
    length fills = 2%nat /\
    Forall (fun b => is_fill b = false) rest /\
    Forall (fun b =>
              is_fill b = true /\
              props_of b !! "color" = Some (PStr "r") /\
              forall k : string, k <> "alpha" -> k <> "color" ->
                props_of b !! k = fill_style !! k) fills.
Proof.
  cbv zeta.
  set (w := store_with three_samples (fun i => i)).
  set (r := ribbon_plot x_ref y_ref 2 1 99 (PStr "r") true (PStr "k") None
              (Some fill_ref) (Some line_ref) w).
  assert (Hr : r = (Ok the_axes, r.2))
    by (apply returned_eq; vm_compute; reflexivity).
  split; [exact (example_data _ true)|].
  split; [exact example_percentages|]. split; [exact Hr|].
  exact (proj2 (ribbon_plot_fill_keywords w x_ref y_ref positions three_samples
                  2 1 99 (PStr "r") true (PStr "k") None (Some fill_ref)
                  (Some line_ref) the_axes r.2 (example_data _ true)
                  example_percentages Hr)).
Defined.

Lemma ribbon_plot_alpha_used_once_witness :
  let w := store_with three_samples (fun i => i) in
  let call := ribbon_plot x_ref y_ref 4 1 99 (PStr "r") true (PStr "k") None
                (Some fill_ref) (Some line_ref) in
  let r1 := call w in
  let r2 := call r1.2 in
  ribbon_data w x_ref y_ref positions three_samples
    (Some fill_ref) (Some line_ref) /\
  percentages 1 99 /\
  dicts w !! fill_ref = Some fill_style /\
  fill_style !! "alpha" = Some (PFloat (1 # 2)) /\
  r1 = (Ok the_axes, r1.2) /\
  r2 = (Ok the_axes, r2.2) /\
  exists fills1 rest1 fills2 rest2,
    artists r1.2 the_axes = fills1 ++ rest1 /\
    length fills1 = 4%nat /\
    Forall (fun b => is_fill b = true /\ fill_alpha b = Some (PFloat (1 # 2)))
           fills1 /\
    Forall (fun b => is_fill b = false) rest1 /\
    artists r2.2 the_axes = artists r1.2 the_axes ++ fills2 ++ rest2 /\
    length fills2 = 4%nat /\
    Forall (fun b => is_fill b = true /\ fill_alpha b = Some (PFloat (1 # 4)))
           fills2 /\
    Forall (fun b => is_fill b = false) rest2.
Proof.
  cbv zeta.
  set (w := store_with three_samples (fun i => i)).
  set (call := ribbon_plot x_ref y_ref 4 1 99 (PStr "r") true (PStr "k") None
                 (Some fill_ref) (Some line_ref)).
  assert (Hr1 : call w = (Ok the_axes, (call w).2))
    by (apply returned_eq; vm_compute; reflexivity).
  assert (Hr2 : call (call w).2 = (Ok the_axes, (call (call w).2).2))
    by (apply returned_eq; vm_compute; reflexivity).
  split; [exact (example_data _ true)|].
  split; [exact example_percentages|]. split; [reflexivity|].
  split; [reflexivity|]. split; [exact Hr1|]. split; [exact Hr2|].
  exact (proj2 (proj2
           (ribbon_plot_alpha_used_once w x_ref y_ref positions three_samples
              4 1 99 (PStr "r") true (PStr "k") None (Some line_ref) fill_ref
              fill_style (PFloat (1 # 2)) the_axes the_axes (call w).2
              (call (call w).2).2 (example_data _ true) example_percentages
              eq_refl eq_refl Hr1 Hr2))).
Defined.

Lemma spaghetti_plot_out_of_range_witness :
  let w := store_with ten_ones (fun i => i) in
  let r := spaghetti_plot x_ref y_ref (Some 0%Z) (Some [0; 3; 12; 7]%Z)
             None None w in
  has_samples_of (Some 0%Z) = false /\
  spaghetti_data w x_ref y_ref positions ten_ones None /\
  line_accepts (mpl w) Straight (items w None) = true /\
  Forall (in_row_range ten_ones) [0; 3]%Z /\
  ~ in_row_range ten_ones 12 /\
  (- long_bound <= 12 < long_bound)%Z /\
  r.1 = Raise IndexError /\
  artists r.2 the_axes = replicate 2 (Line2D Straight positions [1; 1; 1] ∅).
Proof.
  cbv zeta.
  assert (Hidx : Forall (in_row_range ten_ones) [0; 3]%Z)
    by (repeat constructor; vm_compute; discriminate).
  assert (Hbad : ~ in_row_range ten_ones 12).
  { unfold in_row_range, shape0. simpl. lia. }
  assert (Hfits : (- long_bound <= 12 < long_bound)%Z)
    by (unfold long_bound; lia).
  split; [reflexivity|]. split; [apply ten_ones_data|]. split; [reflexivity|].
  split; [exact Hidx|]. split; [exact Hbad|]. split; [exact Hfits|].
  exact (spaghetti_plot_out_of_range (store_with ten_ones (fun i => i))
           x_ref y_ref positions ten_ones (Some 0%Z) [0; 3]%Z [7]%Z 12 None None
           eq_refl (ten_ones_data _) eq_refl Hidx Hbad Hfits).
Defined.

Lemma spaghetti_plot_samples_witness :
  let w := store_with ten_ones (fun i => i) in
  let r := spaghetti_plot x_ref y_ref (Some 4%Z) None None None w in
  (0 < 4)%Z /\
  spaghetti_data w x_ref y_ref positions ten_ones None /\
  r = (Ok the_axes, r.2) /\
  exists idxs,
    length idxs = 4%nat /\
    Forall (fun i => (0 <= i < 3)%Z /\ in_row_range ten_ones i) idxs /\
    artists r.2 the_axes = map (sample_line w positions ten_ones None) idxs.
Proof.
  cbv zeta.
  set (w := store_with ten_ones (fun i => i)).
  set (r := spaghetti_plot x_ref y_ref (Some 4%Z) None None None w).
  assert (Hr : r = (Ok the_axes, r.2))
    by (apply returned_eq; vm_compute; reflexivity).
  split; [lia|]. split; [apply ten_ones_data|]. split; [exact Hr|].
  exact (proj2 (spaghetti_plot_samples w x_ref y_ref positions ten_ones 4 None None
                  the_axes r.2 ltac:(lia) (ten_ones_data _) Hr)).
Defined.
